(** * Banks of matched-filter waveform templates

    A shallow embedding of [pycbc/waveform/bank.py]: the two bank classes
    [CachedFilterBank] and [FilterBank], their constructors, [__len__] and
    [__getitem__], together with the properties of the bank's specification
    that the code decides.

    Conventions of the embedding.
    - Python floats are idealised as exact rationals ([Q]); a Python [int]
      is a [Z].  [int(x)] on a float truncates toward zero ([py_int]).
      Rounding, overflow, infinities and NaN are outside the embedding;
      [Binary64] evaluates the arithmetic of the end frequency (lines
      124-125 and 146) in IEEE binary64 to show where rounding matters.
    - An exception is a value of [exn]; code that can raise returns a
      [result].  [FilterBank.__getitem__] mutates the bank (the caller's
      output buffer and one table row), so it runs in a state-and-error
      monad whose final state is kept also when an exception escapes.
    - The collaborators that live outside [bank.py] (the table loader, the
      cache store, the waveform generator, the inner product and the
      Fourier transform) are interfaces: type classes whose methods carry
      the names the source calls them by.  Apart from the loader and the
      opening of the cache, whose failures the constructors handle or let
      through, a collaborator is taken to return; an exception of its own
      would pass through the bank unchanged.
    - The array helpers of [pycbc.types] that the bank calls ([zeros],
      [clear], [resize], [roll]) are not part of [bank.py]; they are
      modelled from the specification.  Slicing and indexing follow Python
      sequences.
    - A table row is a Python object with attributes; it is a finite map
      from attribute names to values, and a filter refers to its row by the
      row's position in the table (the row object itself, not a copy). *)

From stdpp Require Import base numbers option list strings gmap pretty.
From Stdlib Require Import QArith Qround.
From Stdlib Require Floats.

Set Default Proof Using "Type".

(** ** Exceptions and the error monad *)

Inductive exn : Type :=
| IndexError
| KeyError
| ZeroDivisionError
| ValueError
| IOError.

Inductive result (A : Type) : Type :=
| Ok (a : A)
| Raise (e : exn).

Arguments Ok {A} a.
Arguments Raise {A} e.

Definition is_Ok {A} (r : result A) : bool :=
  match r with Ok _ => true | Raise _ => false end.

(** Computations over a mutable object of type [S]: the state after the
    computation is returned whether it finishes or raises. *)
Definition M (S A : Type) : Type := S -> S * result A.

Definition ret {S A} (a : A) : M S A := fun s => (s, Ok a).

Definition bind {S A B} (c : M S A) (k : A -> M S B) : M S B :=
  fun s => match c s with
           | (s', Ok a) => k a s'
           | (s', Raise e) => (s', Raise e)
           end.

Definition get {S} : M S S := fun s => (s, Ok s).

Definition modify {S} (f : S -> S) : M S unit := fun s => (f s, Ok tt).

Definition lift {S A} (r : result A) : M S A := fun s => (s, r).

Declare Scope py_scope.
Delimit Scope py_scope with py.
Notation "x <- c ;; k" := (bind c (fun x => k))
  (at level 100, c at next level, right associativity) : py_scope.
Notation "c ;;; k" := (bind c (fun _ => k))
  (at level 100, right associativity) : py_scope.

(** ** Python primitives *)

(** [int(x)] for a float [x]: the integer part, rounding toward zero. *)
Definition py_int (x : Q) : Z := Z.quot (Qnum x) (Z.pos (Qden x)).

(** [a / b] on floats raises when the divisor is zero. *)
Definition py_div (a b : Q) : result Q :=
  if Qeq_bool b 0 then Raise ZeroDivisionError else Ok (a / b)%Q.

(** Position addressed by the (possibly negative) index [i] in a sequence
    of [len] elements, as list and array indexing resolve it. *)
Definition py_index (len : nat) (i : Z) : option nat :=
  if (0 <=? i)%Z then
    if (i <? Z.of_nat len)%Z then Some (Z.to_nat i) else None
  else
    if (- Z.of_nat len <=? i)%Z then Some (Z.to_nat (Z.of_nat len + i)) else None.

(** [l[i]], together with the position of the element that was read. *)
Definition py_getitem {A} (l : list A) (i : Z) : result (nat * A) :=
  match py_index (length l) i with
  | Some n => match l !! n with
              | Some x => Ok (n, x)
              | None => Raise IndexError
              end
  | None => Raise IndexError
  end.

(** [l[0:stop]]: a negative [stop] counts from the end. *)
Definition py_slice_to {A} (l : list A) (stop : Z) : list A :=
  if (0 <=? stop)%Z then take (Z.to_nat stop) l
  else take (Z.to_nat (Z.of_nat (length l) + stop)) l.

(** ** Arrays, series and rows *)

Inductive DType : Type := float32 | float64 | complex64 | complex128.

Definition DType_eqb (a b : DType) : bool :=
  match a, b with
  | float32, float32 | float64, float64
  | complex64, complex64 | complex128, complex128 => true
  | _, _ => false
  end.

(** An array element: a complex number; a real sample has a zero imaginary
    part. *)
Definition sample : Type := Q * Q.

Definition zero : sample := (0%Q, 0%Q).

Record TimeSeries : Type := {
  ts_data : list sample;
  ts_delta_t : Q;
  ts_dtype : DType
}.

Record FrequencySeries : Type := {
  fs_data : list sample;
  fs_delta_f : Q;
  fs_dtype : DType
}.

(** The value of one attribute of a table row. *)
Inductive value : Type :=
| VFloat (q : Q)
| VInt (z : Z)
| VStr (s : string).

(** A row of the single-inspiral table: attribute name to value. *)
Abbreviation Row := (gmap string value).

Abbreviation Approximant := string (only parsing).

(** The open-ended generator options ([**kwds]). *)
Abbreviation Kwds := (gmap string value) (only parsing).

(** The frequency-domain filter a bank returns: the series and the
    attributes the bank attaches to it.  An attribute that was never set is
    [None].  [params] is the position of the row object in the bank's
    table. *)
Record Filter : Type := {
  series : FrequencySeries;
  end_frequency : option Q;
  end_idx : option Z;
  params : option nat;
  sigmasq_attr : option Q;
  length_in_time : option Q
}.

(** Modelled from the spec: [pycbc.types.zeros], the allocation of a
    zero-filled array of a given length; the allocator rejects a negative
    length. *)
Definition zeros (n : Z) : result (list sample) :=
  if (n <? 0)%Z then Raise ValueError else Ok (replicate (Z.to_nat n) zero).

(** Modelled from the spec: [Array.clear], which zero-fills an array in
    place. *)
Definition clear (a : list sample) : list sample :=
  replicate (length a) zero.

(** Modelled from the spec: [Array.resize], which zero-pads or truncates an
    array to [new_size] elements (a new allocation unless the size is
    already right). *)
Definition resize (a : list sample) (new_size : Z) : result (list sample) :=
  if (new_size =? Z.of_nat (length a))%Z then Ok a
  else
    match zeros new_size with
    | Raise e => Raise e
    | Ok _ =>
        Ok (take (Z.to_nat new_size) a
              ++ replicate (Z.to_nat new_size - length a) zero)
    end.

(** Modelled from the spec: [Array.roll], the cyclic shift; element [i]
    moves to position [(i + shift) mod len], so a negative [shift] moves
    the series backward. *)
Definition roll (a : list sample) (shift : Z) : list sample :=
  match a with
  | [] => []
  | _ => rotate (Z.to_nat ((- shift) mod Z.of_nat (length a))) a
  end.

(** ** The collaborators *)

(** What the generator hands back: the series it produced, the duration it
    attached to it (if any), and the contents it left in the buffer it was
    given to write into. *)
Record Generated : Type := {
  gen_htilde : FrequencySeries;
  gen_length_in_time : option Q;
  gen_buffer : list sample
}.

(** [pycbc.waveform]: the capability queries and the fill operation. *)
Class Generator : Type := {
  waveform_norm_exists : Approximant -> bool;
  get_waveform_filter_norm :
    Approximant -> FrequencySeries -> Z -> Q -> Q -> list Q;
  get_waveform_end_frequency : Row -> Approximant -> Kwds -> option Q;
  get_template_amplitude_norm : Row -> Approximant -> Kwds -> option Q;
  (* out, template, approximant, f_lower, delta_f, delta_t, distance, kwds *)
  get_waveform_filter :
    list sample -> Row -> Approximant -> Q -> Q -> Q -> Q -> Kwds -> Generated
}.

(** [pycbc.filter.sigmasq], the transform of [pycbc.types], the conversion
    of one element to a numeric type, and the dynamic-range constant of
    [pycbc]. *)
Class Numerics : Type := {
  (* htilde, psd, low_frequency_cutoff *)
  sigmasq : FrequencySeries -> FrequencySeries -> Q -> Q;
  to_frequencyseries : TimeSeries -> FrequencySeries;
  cast : DType -> sample -> sample;
  DYN_RANGE_FAC : Q
}.

(** The template file and the cache store.  [load_table] is
    [ligolw_utils.load_filename] followed by [table.get_table]; [None]
    stands for any exception either of them raises.  [h5py_File] opens the
    cache, keyed by the decimal form of the template index. *)
Class Storage : Type := {
  load_table : string -> option (list Row);
  h5py_File : string -> result (gmap string (list sample))
}.

(** Modelled from the spec: [Array.astype], the coercion of a series to a
    numeric type: the series itself when it already has the type, else a
    converted copy. *)
Definition astype `{Numerics} (h : FrequencySeries) (dt : DType)
  : FrequencySeries :=
  if DType_eqb (fs_dtype h) dt then h
  else {| fs_data := map (cast dt) (fs_data h);
          fs_delta_f := fs_delta_f h;
          fs_dtype := dt |}.

(** ** FilterBank: the synthesis path *)

Module FilterBank.

(** The attributes of a [FilterBank] object.  [out] holds the current
    contents of the caller's buffer when one was supplied; the parsed
    document ([indoc]) is not kept, nothing reads it. *)
Record t : Type := {
  out : option (list sample);
  dtype : DType;
  f_lower : Q;
  approximant : Approximant;
  filename : string;
  delta_f : Q;
  N : Z;
  delta_t : Q;
  filter_length : Z;
  kmin : Z;
  table : list Row;
  extra_args : Kwds;
  psd : option FrequencySeries;
  sigmasq_vec : option (list Q)
}.

(** In-place writes: to the shared buffer and to the table. *)
Definition set_out (o : list sample) (self : t) : t :=
  {| out := Some o; dtype := dtype self; f_lower := f_lower self;
     approximant := approximant self; filename := filename self;
     delta_f := delta_f self; N := N self; delta_t := delta_t self;
     filter_length := filter_length self; kmin := kmin self;
     table := table self; extra_args := extra_args self; psd := psd self;
     sigmasq_vec := sigmasq_vec self |}.

Definition set_table (tb : list Row) (self : t) : t :=
  {| out := out self; dtype := dtype self; f_lower := f_lower self;
     approximant := approximant self; filename := filename self;
     delta_f := delta_f self; N := N self; delta_t := delta_t self;
     filter_length := filter_length self; kmin := kmin self;
     table := tb; extra_args := extra_args self; psd := psd self;
     sigmasq_vec := sigmasq_vec self |}.

(** A write to the caller's buffer: the bank's [out] is that very buffer,
    so the bank sees the write; a private buffer is dropped with the call. *)
Definition write_out (o : list sample) (self : t) : t :=
  match out self with
  | None => self
  | Some _ => set_out o self
  end.

(** [row.template_duration = d] on the row object at position [n]. *)
Definition set_template_duration (n : nat) (d : Q) (tb : list Row)
  : list Row :=
  alter (fun row : Row => <["template_duration" := VFloat d]> row) n tb.

(** Lines 164-166: the write-back of a reported duration. *)
Definition cache_duration (n : nat) (d : option Q) (self : t) : t :=
  match d with
  | None => self
  | Some d => set_table (set_template_duration n d (table self)) self
  end.

Section Code.
Context `{G : Generator} `{X : Numerics} `{S : Storage}.

Local Open Scope py_scope.

(** [FilterBank.__init__] (lines 78-108). *)
Definition __init__ (filename_ : string) (approximant_ : Approximant)
    (filter_length_ : Z) (delta_f_ f_lower_ : Q) (dtype_ : DType)
    (psd_ : option FrequencySeries) (out_ : option (list sample))
    (kwds : Kwds) : result t :=
  let N_ := ((filter_length_ - 1) * 2)%Z in
  match py_div 1 (inject_Z N_ * delta_f_) with
  | Raise e => Raise e
  | Ok delta_t_ =>
    match py_div f_lower_ delta_f_ with
    | Raise e => Raise e
    | Ok k =>
      let table_ :=
        match load_table filename_ with
        | Some rows => rows
        | None => []
        end in
      let sigmasq_vec_ :=
        match psd_ with
        | Some p =>
            if waveform_norm_exists approximant_
            then Some (get_waveform_filter_norm
                         approximant_ p filter_length_ delta_f_ f_lower_)
            else None
        | None => None
        end in
      Ok {| out := out_; dtype := dtype_; f_lower := f_lower_;
            approximant := approximant_; filename := filename_;
            delta_f := delta_f_; N := N_; delta_t := delta_t_;
            filter_length := filter_length_; kmin := py_int k;
            table := table_; extra_args := kwds; psd := psd_;
            sigmasq_vec := sigmasq_vec_ |}
    end
  end.

(** [FilterBank.__len__] (lines 110-111). *)
Definition __len__ (self : t) : Z := Z.of_nat (length (table self)).

(** Lines 115-118: new memory unless output memory was given. *)
Definition select_tempout (self : t) : result (list sample) :=
  match out self with
  | None => zeros (filter_length self)
  | Some o => Ok o
  end.

(** Lines 124-125: the cap on the end frequency. *)
Definition clamp_f_end (self : t) (f_end : option Q) : Q :=
  let cap := (inject_Z (filter_length self - 1) * delta_f self)%Q in
  match f_end with
  | None => cap
  | Some f =>
      if Qle_bool (inject_Z (filter_length self) * delta_f self) f
      then cap else f
  end.

(** Lines 150-162: the normalisation, when a spectrum was given. *)
Definition normalization (self : t) (row : Row) (htilde : FrequencySeries)
    (idx : Z) : result (option Q) :=
  match psd self with
  | None => Ok None
  | Some p =>
      match sigmasq_vec self with
      | Some vec =>
          let amp_norm :=
            match get_template_amplitude_norm
                    row (approximant self) (extra_args self) with
            | None => 1%Q
            | Some a => a
            end in
          let scale := (DYN_RANGE_FAC * amp_norm)%Q in
          match py_getitem vec idx with
          | Raise e => Raise e
          | Ok (_, v) => Ok (Some (v * scale ^ 2)%Q)
          end
      | None => Ok (Some (sigmasq htilde p (f_lower self)))
      end
  end.

(** Lines 129 and 133: the cleared buffer, cut to [filter_length], that the
    generator is given to write into. *)
Definition view (self : t) (tempout : list sample) : list sample :=
  py_slice_to (clear tempout) (filter_length self).

(** Lines 133-136: the call of the generator. *)
Definition generate (self : t) (tempout : list sample) (row : Row)
    (distance : Q) : Generated :=
  get_waveform_filter (view self tempout) row (approximant self)
    (f_lower self) (delta_f self) (delta_t self) distance (extra_args self).

(** [FilterBank.__getitem__] (lines 113-168).  Every [self.table[index]]
    of the source denotes the same row object; it is resolved once, at its
    first use. *)
Definition __getitem__ (index : Z) : M t Filter :=
  self <- get ;;
  tempout <- lift (select_tempout self) ;;
  r <- lift (py_getitem (table self) index) ;;
  let '(n, row) := r in
  let f_end :=
    clamp_f_end self
      (get_waveform_end_frequency row (approximant self) (extra_args self)) in
  (* tempout.clear(): the caller's buffer itself when it is shared *)
  modify (write_out (clear tempout)) ;;;
  distance <- lift (py_div 1 DYN_RANGE_FAC) ;;
  let g := generate self tempout row distance in
  (* the generator wrote through the view into the buffer *)
  modify (write_out (gen_buffer g
                       ++ drop (length (view self tempout)) (clear tempout))) ;;;
  let htilde := astype (gen_htilde g) (dtype self) in
  q <- lift (py_div f_end (fs_delta_f htilde)) ;;
  let idx := py_int q in
  sig <- lift (normalization self row htilde idx) ;;
  modify (cache_duration n (gen_length_in_time g)) ;;;
  ret {| series := htilde;
         end_frequency := Some f_end;
         end_idx := Some idx;
         params := Some n;
         sigmasq_attr := sig;
         length_in_time := gen_length_in_time g |}.

End Code.
End FilterBank.

(** ** CachedFilterBank: the replay path *)

Module CachedFilterBank.

(** The attributes of a [CachedFilterBank] object; [cache] is the opened
    store. *)
Record t : Type := {
  filter_length : Z;
  delta_f : Q;
  f_lower : Q;
  dtype : DType;
  psd : FrequencySeries;
  sigmasq_vec : option (list Q);
  N : Z;
  cache : gmap string (list sample);
  table : list Row
}.

(** The same bank with another value in its [dtype] attribute. *)
Definition with_dtype (d : DType) (self : t) : t :=
  {| filter_length := filter_length self; delta_f := delta_f self;
     f_lower := f_lower self; dtype := d; psd := psd self;
     sigmasq_vec := sigmasq_vec self; N := N self; cache := cache self;
     table := table self |}.

(** The same bank with another value in its [sigmasq_vec] attribute. *)
Definition with_sigmasq_vec (v : option (list Q)) (self : t) : t :=
  {| filter_length := filter_length self; delta_f := delta_f self;
     f_lower := f_lower self; dtype := dtype self; psd := psd self;
     sigmasq_vec := v; N := N self; cache := cache self;
     table := table self |}.

Section Code.
Context `{X : Numerics} `{S : Storage}.

(** [CachedFilterBank.__init__] (lines 43-60). *)
Definition __init__ (filename cache_name : string) (filter_length_ : Z)
    (delta_f_ f_lower_ : Q) (dtype_ : DType) (psd_ : FrequencySeries)
  : result t :=
  match h5py_File cache_name with
  | Raise e => Raise e
  | Ok store =>
      Ok {| filter_length := filter_length_; delta_f := delta_f_;
            f_lower := f_lower_; dtype := dtype_; psd := psd_;
            sigmasq_vec := None;
            N := ((filter_length_ - 1) * 2)%Z;
            cache := store;
            table := match load_table filename with
                     | Some rows => rows
                     | None => []
                     end |}
  end.

(** [CachedFilterBank.__len__] (lines 62-63). *)
Definition __len__ (self : t) : Z := Z.of_nat (length (table self)).

(** Line 66: the series built from the cache entry. *)
Definition cached_series (self : t) (raw : list sample) : TimeSeries :=
  {| ts_data := map (cast (fs_dtype (psd self))) raw;
     ts_delta_t := 1 / 4096;
     ts_dtype := fs_dtype (psd self) |}.

(** Lines 67-69: resize to [N], then roll back by the original length. *)
Definition padded_and_rolled (self : t) (template : TimeSeries)
  : result TimeSeries :=
  let template_size := Z.of_nat (length (ts_data template)) in
  match resize (ts_data template) (N self) with
  | Raise e => Raise e
  | Ok d =>
      Ok {| ts_data := roll d (- template_size);
            ts_delta_t := ts_delta_t template;
            ts_dtype := ts_dtype template |}
  end.

(** [CachedFilterBank.__getitem__] (lines 65-74). *)
Definition __getitem__ (self : t) (index : Z) : result Filter :=
  match cache self !! (pretty index : string) with
  | None => Raise KeyError
  | Some raw =>
    match padded_and_rolled self (cached_series self raw) with
    | Raise e => Raise e
    | Ok template =>
      let htilde := to_frequencyseries template in
      match resize (fs_data htilde) (filter_length self) with
      | Raise e => Raise e
      | Ok d =>
        let htilde := {| fs_data := d;
                         fs_delta_f := fs_delta_f htilde;
                         fs_dtype := fs_dtype htilde |} in
        let s := sigmasq htilde (psd self) (f_lower self) in
        match py_getitem (table self) index with
        | Raise e => Raise e
        | Ok (n, _) =>
            Ok {| series := htilde;
                  end_frequency := None;
                  end_idx := None;
                  params := Some n;
                  sigmasq_attr := Some s;
                  length_in_time := None |}
        end
      end
    end
  end.

End Code.
End CachedFilterBank.

(** ** Sequences of operations on a bank *)

(** The operations a caller can perform on a constructed [FilterBank]. *)
Inductive op : Type :=
| Len
| GetItem (index : Z).

Section Run.
Context `{G : Generator} `{X : Numerics} `{S : Storage}.

(** The bank after one operation (an exception leaves the bank as the
    interrupted call left it). *)
Definition step (self : FilterBank.t) (o : op) : FilterBank.t :=
  match o with
  | Len => self
  | GetItem index => fst (FilterBank.__getitem__ index self)
  end.

(** The bank after a sequence of operations. *)
Definition run (ops : list op) (self : FilterBank.t) : FilterBank.t :=
  foldl step self ops.

End Run.

(** ** The loaded table *)

Section Loaded.
Context `{S : Storage}.

(** The table a constructor ends up with (lines 54-60 and 91-97): the rows
    of the file, or no rows when reading it raised. *)
Definition loaded_table (filename : string) : list Row :=
  match load_table filename with
  | Some rows => rows
  | None => []
  end.

End Loaded.

(** ** What the bank relies on *)

Section Contracts.
Context `{G : Generator} `{X : Numerics}.



(** The end frequency the generator reports for a row, as the bank asks
    for it (lines 121-122). *)
Definition reported_end (self : FilterBank.t) (row : Row) : option Q :=
  get_waveform_end_frequency row (FilterBank.approximant self)
    (FilterBank.extra_args self).

End Contracts.

(** ** A small world to run the banks in *)

(** Concrete collaborators, small enough to evaluate: a generator that
    writes one bin of the buffer it is given and leaves the others as it
    found them, a transform that keeps the first [n/2 + 1] samples, and a
    store with one template file and one cache. *)
Module Toy.

Definition float_attr (row : Row) (name : string) : option Q :=
  match row !! name with
  | Some (VFloat q) => Some q
  | _ => None
  end.

Definition fill (buf : list sample) (row : Row) : list sample :=
  match float_attr row "mass1" with
  | Some m => <[0%nat := (m, 0%Q)]> buf
  | None => buf
  end.

#[export] Instance generator : Generator := {|
  waveform_norm_exists a := String.eqb a "SPAtmplt";
  get_waveform_filter_norm _ _ filter_length _ _ :=
    map (fun k => inject_Z (Z.of_nat k)) (seq 0 (Z.to_nat filter_length));
  get_waveform_end_frequency row _ _ := float_attr row "f_final";
  get_template_amplitude_norm row _ _ := float_attr row "amp";
  get_waveform_filter buf row _ _ delta_f _ _ _ :=
    {| gen_htilde := {| fs_data := fill buf row;
                        fs_delta_f := delta_f;
                        fs_dtype := complex128 |};
       gen_length_in_time := float_attr row "chirp";
       gen_buffer := fill buf row |}
|}.

Definition norm2 (x : sample) : Q := (fst x * fst x + snd x * snd x)%Q.

#[export] Instance numerics : Numerics := {|
  sigmasq h _ _ := foldr Qplus 0%Q (map norm2 (fs_data h));
  to_frequencyseries ts :=
    {| fs_data := take (length (ts_data ts) / 2 + 1) (ts_data ts);
       fs_delta_f := 1 / (inject_Z (Z.of_nat (length (ts_data ts)))
                          * ts_delta_t ts);
       fs_dtype := complex64 |};
  cast _ x := x;
  DYN_RANGE_FAC := 2 ^ 69
|}.

Definition row0 : Row :=
  <["mass1" := VFloat 3]> (<["f_final" := VFloat (9 # 8)]>
  (<["chirp" := VFloat 7]> (<["template_duration" := VFloat 0]> ∅))).

Definition row1 : Row :=
  <["mass1" := VFloat 5]> (<["amp" := VFloat (1 # 2)]>
  (<["template_duration" := VFloat 0]> ∅)).

Definition row2 : Row :=
  <["mass1" := VFloat 2]> (<["template_duration" := VFloat 0]> ∅).

Definition real (q : Q) : sample := (q, 0%Q).

#[export] Instance storage : Storage := {|
  load_table name :=
    if String.eqb name "bank.xml" then Some [row0; row1; row2] else None;
  h5py_File name :=
    if String.eqb name "cache.hdf"
    then Ok (<["0" := [real 1; real 2; real 3]]>
             (<["1" := [real 4; real 5]]>
             (<["2" := replicate 2048 (real 1)]> ∅)))
    else Raise IOError
|}.

Definition flat_psd : FrequencySeries :=
  {| fs_data := replicate 5 (real 1); fs_delta_f := 1 # 4;
     fs_dtype := float32 |}.

(** [FilterBank("bank.xml", "TaylorF2", 5, 0.25, 1.0, complex128)]: no
    spectrum, private buffers. *)
Definition synth : FilterBank.t :=
  {| FilterBank.out := None; FilterBank.dtype := complex128;
     FilterBank.f_lower := 1; FilterBank.approximant := "TaylorF2";
     FilterBank.filename := "bank.xml"; FilterBank.delta_f := 1 # 4;
     FilterBank.N := 8; FilterBank.delta_t := 4 # 8;
     FilterBank.filter_length := 5; FilterBank.kmin := 4;
     FilterBank.table := [row0; row1; row2]; FilterBank.extra_args := ∅;
     FilterBank.psd := None; FilterBank.sigmasq_vec := None |}.

(** The same with a spectrum and an approximant that has a precomputed
    normalisation. *)
Definition normed : FilterBank.t :=
  {| FilterBank.out := None; FilterBank.dtype := complex128;
     FilterBank.f_lower := 1; FilterBank.approximant := "SPAtmplt";
     FilterBank.filename := "bank.xml"; FilterBank.delta_f := 1 # 4;
     FilterBank.N := 8; FilterBank.delta_t := 4 # 8;
     FilterBank.filter_length := 5; FilterBank.kmin := 4;
     FilterBank.table := [row0; row1; row2]; FilterBank.extra_args := ∅;
     FilterBank.psd := Some flat_psd;
     FilterBank.sigmasq_vec := Some [0; 1; 2; 3; 4]%Q |}.

(** [synth] with a caller's buffer of two elements, holding the remains of
    an earlier use. *)
Definition short_shared : FilterBank.t :=
  FilterBank.set_out [real 9; real 9] synth.

(** [CachedFilterBank("bank.xml", "cache.hdf", 2, 0.25, 1.0, complex128,
    flat_psd)]: [N] is 2. *)
Definition cached : CachedFilterBank.t :=
  {| CachedFilterBank.filter_length := 2; CachedFilterBank.delta_f := 1 # 4;
     CachedFilterBank.f_lower := 1; CachedFilterBank.dtype := complex128;
     CachedFilterBank.psd := flat_psd; CachedFilterBank.sigmasq_vec := None;
     CachedFilterBank.N := 2;
     CachedFilterBank.cache :=
       <["0" := [real 1; real 2; real 3]]>
         (<["1" := [real 4; real 5]]>
         (<["2" := replicate 2048 (real 1)]> ∅));
     CachedFilterBank.table := [row0; row1; row2] |}.

(** The same with [filter_length] 1025: [N] is 2048. *)
Definition cached_1025 : CachedFilterBank.t :=
  {| CachedFilterBank.filter_length := 1025;
     CachedFilterBank.delta_f := 1 # 4;
     CachedFilterBank.f_lower := 1; CachedFilterBank.dtype := complex128;
     CachedFilterBank.psd := flat_psd; CachedFilterBank.sigmasq_vec := None;
     CachedFilterBank.N := 2048;
     CachedFilterBank.cache := CachedFilterBank.cache cached;
     CachedFilterBank.table := [row0; row1; row2] |}.

End Toy.

(** ** Further contracts and relations *)

Section MoreContracts.
Context `{G : Generator}.

(** The generator writes in place: the buffer it leaves has the length of
    the buffer it was given. *)
Definition keeps_buffer_length : Prop :=
  forall buf row a f_low df dt dist kw,
    length (gen_buffer (get_waveform_filter buf row a f_low df dt dist kw))
    = length buf.

End MoreContracts.

(** Two states of a [FilterBank] with the same configuration: every
    attribute other than the table and the contents of the caller's buffer
    is the same, and both have a caller's buffer or neither has. *)
Definition same_settings (a b : FilterBank.t) : Prop :=
  FilterBank.dtype a = FilterBank.dtype b
  /\ FilterBank.f_lower a = FilterBank.f_lower b
  /\ FilterBank.approximant a = FilterBank.approximant b
  /\ FilterBank.filename a = FilterBank.filename b
  /\ FilterBank.delta_f a = FilterBank.delta_f b
  /\ FilterBank.N a = FilterBank.N b
  /\ FilterBank.delta_t a = FilterBank.delta_t b
  /\ FilterBank.filter_length a = FilterBank.filter_length b
  /\ FilterBank.kmin a = FilterBank.kmin b
  /\ FilterBank.extra_args a = FilterBank.extra_args b
  /\ FilterBank.psd a = FilterBank.psd b
  /\ FilterBank.sigmasq_vec a = FilterBank.sigmasq_vec b
  /\ (is_Some (FilterBank.out a) <-> is_Some (FilterBank.out b)).

(** The caller's buffers of two states, when both have one, have the same
    length. *)
Definition same_buffer_length (a b : FilterBank.t) : Prop :=
  forall x y,
    FilterBank.out a = Some x -> FilterBank.out b = Some y ->
    length x = length y.

(** ** The end frequency in binary floating point *)

(** Lines 124-125 and 146 evaluated in IEEE binary64, the arithmetic of
    Python floats, where [FilterBank.clamp_f_end] and [py_int] compute
    with exact rationals.  [None] stands for an exception. *)
Module Binary64.
Import PrimFloat FloatOps SpecFloat.

(** The conversion of an [int] operand of a float operation: the nearest
    binary64 value; Python raises [OverflowError] when there is none. *)
Definition of_int (z : Z) : option float :=
  let x := SF2Prim (binary_normalize prec emax z 0 false) in
  if is_infinity x then None else Some x.

(** [int(x)]: the integer part of [x], toward zero; it raises on an
    infinity and on a NaN. *)
Definition to_int (x : float) : option Z :=
  match Prim2SF x with
  | S754_zero _ => Some 0%Z
  | S754_finite s m e =>
      let v := if (0 <=? e)%Z then (Z.pos m * 2 ^ e)%Z
               else (Z.pos m / 2 ^ (- e))%Z in
      Some (if s then (- v)%Z else v)
  | S754_infinity _ | S754_nan => None
  end.

(** Line 125: [(self.filter_length-1) * self.delta_f]. *)
Definition cap (filter_length : Z) (delta_f : float) : option float :=
  match of_int (filter_length - 1) with
  | Some c => Some (c * delta_f)%float
  | None => None
  end.

(** Lines 124-125. *)
Definition clamp_f_end (filter_length : Z) (delta_f : float)
    (f_end : option float) : option float :=
  match f_end with
  | None => cap filter_length delta_f
  | Some f =>
      match of_int filter_length with
      | Some l =>
          if (l * delta_f <=? f)%float then cap filter_length delta_f
          else Some f
      | None => None
      end
  end.

(** Line 146: [int(htilde.end_frequency / htilde.delta_f)]. *)
Definition end_idx (filter_length : Z) (delta_f htilde_delta_f : float)
    (f_end : option float) : option Z :=
  match clamp_f_end filter_length delta_f f_end with
  | Some f =>
      if (htilde_delta_f =? 0)%float then None
      else to_int (f / htilde_delta_f)%float
  | None => None
  end.

(** The binary64 values of the literals [0.1] and [1.7]. *)
Definition tenth : float := 0x1.999999999999ap-4%float.

Definition seventeen_tenths : float := 0x1.b333333333333p+0%float.

End Binary64.

(** ** More of the small world *)

(** Further banks to run, and a generator like [Toy.generator] whose fill
    operation reads the row's [template_duration], the attribute the bank
    writes: it puts the duration into the first bin. *)
Module Toy2.

Definition recall (buf : list sample) (row : Row) : list sample :=
  match Toy.float_attr row "template_duration" with
  | Some d => <[0%nat := (d, 0%Q)]> buf
  | None => buf
  end.

#[export] Instance generator : Generator := {|
  waveform_norm_exists := waveform_norm_exists (Generator := Toy.generator);
  get_waveform_filter_norm :=
    get_waveform_filter_norm (Generator := Toy.generator);
  get_waveform_end_frequency :=
    get_waveform_end_frequency (Generator := Toy.generator);
  get_template_amplitude_norm :=
    get_template_amplitude_norm (Generator := Toy.generator);
  get_waveform_filter buf row _ _ delta_f _ _ _ :=
    {| gen_htilde := {| fs_data := recall buf row;
                        fs_delta_f := delta_f;
                        fs_dtype := complex128 |};
       gen_length_in_time := Toy.float_attr row "chirp";
       gen_buffer := recall buf row |}
|}.



(** [Toy.cached] with a table of one row: the cache has more entries than
    the table has rows. *)
Definition cached_short : CachedFilterBank.t :=
  {| CachedFilterBank.filter_length := 2; CachedFilterBank.delta_f := 1 # 4;
     CachedFilterBank.f_lower := 1; CachedFilterBank.dtype := complex128;
     CachedFilterBank.psd := Toy.flat_psd;
     CachedFilterBank.sigmasq_vec := None;
     CachedFilterBank.N := 2;
     CachedFilterBank.cache := CachedFilterBank.cache Toy.cached;
     CachedFilterBank.table := [Toy.row0] |}.

End Toy2.

(** ** Facts about the Python primitives *)



Lemma py_index_Some (len : nat) (i : Z) (n : nat) :
  py_index len i = Some n ->
  (n < len)%nat /\ (Z.of_nat n = i \/ Z.of_nat n = Z.of_nat len + i)%Z.
Proof.
  unfold py_index. intros H.
  destruct (Z.leb_spec 0 i).
  - destruct (Z.ltb_spec i (Z.of_nat len)); [|done].
    injection H as <-. lia.
  - destruct (Z.leb_spec (- Z.of_nat len) i); [|done].
    injection H as <-. lia.
Qed.

Lemma py_getitem_Ok {A} (l : list A) (i : Z) (n : nat) (x : A) :
  py_getitem l i = Ok (n, x) <->
  py_index (length l) i = Some n /\ l !! n = Some x.
Proof.
  unfold py_getitem. destruct (py_index (length l) i) as [m|].
  - destruct (l !! m) as [y|] eqn:E.
    + split; [intros [= <- <-]; done|].
      intros [[= <-] Hx]. rewrite E in Hx. by injection Hx as <-.
    + split; [discriminate|]. intros [[= <-] Hx]. congruence.
  - split; [discriminate|]. intros [? _]. discriminate.
Qed.

Lemma length_py_slice_to {A} (l : list A) (stop : Z) :
  (0 <= stop)%Z ->
  length (py_slice_to l stop) = (Z.to_nat stop `min` length l)%nat.
Proof.
  intros H. unfold py_slice_to. destruct (Z.leb_spec 0 stop); [|lia].
  by rewrite length_take.
Qed.

Lemma zeros_Ok (n : Z) (a : list sample) :
  zeros n = Ok a <-> (0 <= n)%Z /\ a = replicate (Z.to_nat n) zero.
Proof.
  unfold zeros. destruct (Z.ltb_spec n 0) as [Hn|Hn].
  - split; [discriminate|lia].
  - split; [intros [= <-]; split; [lia|done]|intros [_ ->]; done].
Qed.

Lemma length_clear (a : list sample) : length (clear a) = length a.
Proof. unfold clear. by rewrite length_replicate. Qed.


(** ** Facts about the array helpers *)

Lemma resize_Ok (a : list sample) (n : Z) :
  (0 <= n)%Z ->
  resize a n = Ok (take (Z.to_nat n) a
                     ++ replicate (Z.to_nat n - length a) zero).
Proof.
  intros Hn. unfold resize, zeros.
  destruct (Z.eqb_spec n (Z.of_nat (length a))) as [->|Hne].
  - rewrite Nat2Z.id, Nat.sub_diag, firstn_all. simpl. by rewrite app_nil_r.
  - destruct (Z.ltb_spec n 0); [lia|done].
Qed.

Lemma resize_length (a d : list sample) (n : Z) :
  (0 <= n)%Z -> resize a n = Ok d -> Z.of_nat (length d) = n.
Proof.
  intros Hn. rewrite resize_Ok by done. intros [= <-].
  rewrite length_app, length_take, length_replicate. lia.
Qed.

Lemma resize_pad (a : list sample) (n : Z) :
  (Z.of_nat (length a) <= n)%Z ->
  resize a n = Ok (a ++ replicate (Z.to_nat n - length a) zero).
Proof.
  intros Hn. rewrite resize_Ok by lia. by rewrite take_ge by lia.
Qed.

Lemma resize_truncate (a : list sample) (n : Z) :
  (0 <= n <= Z.of_nat (length a))%Z ->
  resize a n = Ok (take (Z.to_nat n) a).
Proof.
  intros Hn. rewrite resize_Ok by lia.
  replace (Z.to_nat n - length a)%nat with 0%nat by lia.
  simpl. by rewrite app_nil_r.
Qed.

Lemma length_roll (a : list sample) (shift : Z) :
  length (roll a shift) = length a.
Proof. unfold roll. destruct a as [|x l]; [done|]. by rewrite length_rotate. Qed.

Lemma roll_padded (a : list sample) (k : nat) :
  roll (a ++ replicate k zero) (- Z.of_nat (length a)) = replicate k zero ++ a.
Proof.
  unfold roll. destruct (a ++ replicate k zero) as [|x l] eqn:E.
  - apply app_eq_nil in E as [-> E]. destruct k; [done|discriminate].
  - rewrite <- E. clear x l E. rewrite Z.opp_involutive.
    rewrite <- Nat2Z.inj_mod, Nat2Z.id. unfold rotate.
    rewrite Nat.Div0.mod_mod, length_app, length_replicate.
    destruct k as [|k].
    + rewrite Nat.add_0_r, Nat.Div0.mod_same. simpl. by rewrite !app_nil_r.
    + rewrite Nat.mod_small by lia.
      rewrite drop_app_length, take_app_length. done.
Qed.

(** ** Facts about [FilterBank] *)

Section FilterBankFacts.
Context `{G : Generator} `{X : Numerics} `{S : Storage}.
Import FilterBank.

Lemma write_out_write_out (o1 o2 : list sample) (self : t) :
  write_out o2 (write_out o1 self) = write_out o2 self.
Proof. unfold write_out. destruct (out self) eqn:E; simpl; [done|by rewrite E]. Qed.

Lemma getitem_unfold (index : Z) (self : t) :
  __getitem__ index self =
  match select_tempout self with
  | Raise e => (self, Raise e)
  | Ok tempout =>
    match py_getitem (table self) index with
    | Raise e => (self, Raise e)
    | Ok (n, row) =>
      match py_div 1 DYN_RANGE_FAC with
      | Raise e => (write_out (clear tempout) self, Raise e)
      | Ok distance =>
        let g := generate self tempout row distance in
        let self2 :=
          write_out (gen_buffer g
                       ++ drop (length (view self tempout)) (clear tempout))
                    self in
        let htilde := astype (gen_htilde g) (dtype self) in
        let f_end := clamp_f_end self (reported_end self row) in
        match py_div f_end (fs_delta_f htilde) with
        | Raise e => (self2, Raise e)
        | Ok q =>
          match normalization self row htilde (py_int q) with
          | Raise e => (self2, Raise e)
          | Ok sig =>
              (cache_duration n (gen_length_in_time g) self2,
               Ok {| series := htilde;
                     end_frequency := Some f_end;
                     end_idx := Some (py_int q);
                     params := Some n;
                     sigmasq_attr := sig;
                     length_in_time := gen_length_in_time g |})
          end
        end
      end
    end
  end.
Proof.
  unfold __getitem__, bind, get, lift, modify, ret, reported_end.
  destruct (select_tempout self) as [tempout|e]; [|done].
  destruct (py_getitem (table self) index) as [[n row]|e]; [|done].
  destruct (py_div 1 DYN_RANGE_FAC) as [distance|e]; [|done].
  cbv zeta. rewrite write_out_write_out.
  destruct (py_div _ _) as [q|e]; [|done].
  destruct (normalization _ _ _ _) as [sig|e]; done.
Qed.

(** What a call that returns a filter went through. *)
Lemma getitem_Ok_inv (index : Z) (self self' : t) (h : Filter) :
  __getitem__ index self = (self', Ok h) ->
  exists tempout n row distance q sig,
    select_tempout self = Ok tempout
    /\ py_getitem (table self) index = Ok (n, row)
    /\ py_div 1 DYN_RANGE_FAC = Ok distance
    /\ py_div (clamp_f_end self (reported_end self row))
              (fs_delta_f (astype (gen_htilde (generate self tempout row distance))
                                  (dtype self))) = Ok q
    /\ normalization self row
         (astype (gen_htilde (generate self tempout row distance)) (dtype self))
         (py_int q) = Ok sig
    /\ self' = cache_duration n
                 (gen_length_in_time (generate self tempout row distance))
                 (write_out
                    (gen_buffer (generate self tempout row distance)
                       ++ drop (length (view self tempout)) (clear tempout))
                    self)
    /\ h = {| series := astype (gen_htilde (generate self tempout row distance))
                               (dtype self);
              end_frequency := Some (clamp_f_end self (reported_end self row));
              end_idx := Some (py_int q);
              params := Some n;
              sigmasq_attr := sig;
              length_in_time :=
                gen_length_in_time (generate self tempout row distance) |}.
Proof.
  rewrite getitem_unfold.
  destruct (select_tempout self) as [tempout|e]; [|discriminate].
  destruct (py_getitem (table self) index) as [[n row]|e]; [|discriminate].
  destruct (py_div 1 DYN_RANGE_FAC) as [distance|e]; [|discriminate].
  cbv zeta.
  destruct (py_div _ _) as [q|e] eqn:Hq; [|discriminate].
  destruct (normalization _ _ _ _) as [sig|e] eqn:Hs; [|discriminate].
  intros [= <- <-]. exists tempout, n, row, distance, q, sig. done.
Qed.





(** *** What a call leaves behind *)

Lemma sigmasq_vec_write_out (o : list sample) (self : t) :
  sigmasq_vec (write_out o self) = sigmasq_vec self.
Proof. unfold write_out. by destruct (out self). Qed.

Lemma table_write_out (o : list sample) (self : t) :
  table (write_out o self) = table self.
Proof. unfold write_out. by destruct (out self). Qed.

Lemma sigmasq_vec_cache_duration (n : nat) (d : option Q) (self : t) :
  sigmasq_vec (cache_duration n d self) = sigmasq_vec self.
Proof. by destruct d. Qed.

Lemma table_cache_duration (n : nat) (d : option Q) (self : t) :
  table (cache_duration n d self)
  = match d with
    | None => table self
    | Some x => set_template_duration n x (table self)
    end.
Proof. by destruct d. Qed.

(** The state after a call, whatever its outcome: some write to the
    caller's buffer, then possibly the write-back of a duration to the row
    the index addresses. *)
Lemma getitem_state (index : Z) (self : t) :
  exists (o : option (list sample)) (d : option Q) (n : nat),
    fst (__getitem__ index self)
    = cache_duration n d (match o with
                          | None => self
                          | Some b => write_out b self
                          end)
    /\ (d = None \/ exists row, py_getitem (table self) index = Ok (n, row)).
Proof.
  rewrite getitem_unfold.
  destruct (select_tempout self) as [tempout|e];
    [|by exists None, None, 0%nat; auto].
  destruct (py_getitem (table self) index) as [[n row]|e];
    [|by exists None, None, 0%nat; auto].
  destruct (py_div 1 DYN_RANGE_FAC) as [distance|e];
    [|by exists (Some (clear tempout)), None, 0%nat; auto].
  cbv zeta.
  destruct (py_div _ _) as [q|e]; [|by eexists (Some _), None, 0%nat; auto].
  destruct (normalization _ _ _ _) as [sig|e];
    [|by eexists (Some _), None, 0%nat; auto].
  eexists (Some _), _, n. split; [done|]. right. by exists row.
Qed.

Lemma getitem_sigmasq_vec (index : Z) (self : t) :
  sigmasq_vec (fst (__getitem__ index self)) = sigmasq_vec self.
Proof.
  destruct (getitem_state index self) as (o & d & n & -> & _).
  rewrite sigmasq_vec_cache_duration.
  destruct o; [apply sigmasq_vec_write_out|done].
Qed.

Lemma getitem_table (index : Z) (self : t) :
  table (fst (__getitem__ index self)) = table self
  \/ exists n row d,
       py_getitem (table self) index = Ok (n, row)
       /\ table (fst (__getitem__ index self))
          = set_template_duration n d (table self).
Proof.
  destruct (getitem_state index self) as (o & d & n & -> & Hd).
  rewrite table_cache_duration.
  assert (Ht : table (match o with
                      | None => self
                      | Some b => write_out b self
                      end) = table self).
  { destruct o; [apply table_write_out|done]. }
  rewrite Ht. destruct d as [x|]; [|by left].
  destruct Hd as [|[row Hrow]]; [done|]. right. by exists n, row, x.
Qed.

(** *** Rows under the write-back *)

Lemma length_set_template_duration (n : nat) (d : Q) (tb : list Row) :
  length (set_template_duration n d tb) = length tb.
Proof. unfold set_template_duration. by rewrite length_alter. Qed.

Lemma lookup_set_template_duration_eq (n : nat) (d : Q) (tb : list Row) :
  set_template_duration n d tb !! n
  = (fun row : Row => <["template_duration" := VFloat d]> row) <$> tb !! n.
Proof. unfold set_template_duration. by rewrite list_lookup_alter_eq. Qed.

Lemma lookup_set_template_duration_ne (n j : nat) (d : Q) (tb : list Row) :
  n <> j -> set_template_duration n d tb !! j = tb !! j.
Proof. intros Hne. unfold set_template_duration. by rewrite list_lookup_alter_ne. Qed.


End FilterBankFacts.

(** ** Facts about sequences of operations *)

Section RunFacts.
Context `{G : Generator} `{X : Numerics}.
Import FilterBank.

Lemma run_cons (o : op) (ops : list op) (self : t) :
  run (o :: ops) self = run ops (step self o).
Proof. reflexivity. Qed.

Lemma step_sigmasq_vec (o : op) (self : t) :
  sigmasq_vec (step self o) = sigmasq_vec self.
Proof. destruct o as [|index]; [done|apply getitem_sigmasq_vec]. Qed.

Lemma run_sigmasq_vec (ops : list op) (self : t) :
  sigmasq_vec (run ops self) = sigmasq_vec self.
Proof.
  revert self. induction ops as [|o ops IH]; intros self; [done|].
  rewrite run_cons, IH. apply step_sigmasq_vec.
Qed.

Lemma step_table_length (o : op) (self : t) :
  length (table (step self o)) = length (table self).
Proof.
  destruct o as [|index]; [done|]. simpl.
  destruct (getitem_table index self) as [->|(n & row & d & _ & ->)]; [done|].
  apply length_set_template_duration.
Qed.

Lemma run_table_length (ops : list op) (self : t) :
  length (table (run ops self)) = length (table self).
Proof.
  revert self. induction ops as [|o ops IH]; intros self; [done|].
  rewrite run_cons, IH. apply step_table_length.
Qed.

(** One operation changes at most the [template_duration] of the row its
    index addresses. *)
Lemma step_rows (o : op) (self : t) (j : nat) (row : Row) :
  table self !! j = Some row ->
  exists row' : Row,
    table (step self o) !! j = Some row'
    /\ (forall key, key <> "template_duration" -> row' !! key = row !! key)
    /\ ((forall i, o = GetItem i ->
                   py_index (length (table self)) i <> Some j) ->
        row' = row).
Proof.
  intros Hj. destruct o as [|index]; [by exists row|]. simpl.
  destruct (getitem_table index self) as [->|(n & r & d & Hn & ->)];
    [by exists row|].
  apply py_getitem_Ok in Hn as [Hn _].
  destruct (decide (n = j)) as [->|Hne].
  - exists (<["template_duration" := VFloat d]> row).
    rewrite lookup_set_template_duration_eq, Hj. split; [done|]. split.
    + intros key Hkey. by rewrite lookup_insert_ne.
    + intros Hfree. by destruct (Hfree index).
  - exists row. by rewrite lookup_set_template_duration_ne.
Qed.

Lemma run_rows (ops : list op) (self : t) (j : nat) (row : Row) :
  table self !! j = Some row ->
  exists row' : Row,
    table (run ops self) !! j = Some row'
    /\ (forall key, key <> "template_duration" -> row' !! key = row !! key)
    /\ ((forall i, GetItem i ∈ ops ->
                   py_index (length (table self)) i <> Some j) ->
        row' = row).
Proof.
  revert self row. induction ops as [|o ops IH]; intros self row Hj.
  { by exists row. }
  destruct (step_rows o self j row Hj) as (row1 & H1 & Hkeys1 & Hfree1).
  destruct (IH (step self o) row1 H1) as (row2 & H2 & Hkeys2 & Hfree2).
  exists row2. rewrite run_cons. split; [done|]. split.
  - intros key Hkey. by rewrite Hkeys2, Hkeys1.
  - intros Hfree. rewrite Hfree2, Hfree1; [done| |].
    + intros i ->. apply Hfree. by left.
    + intros i Hi. rewrite step_table_length. apply Hfree. by right.
Qed.

End RunFacts.

(** ** Facts about the constructors and about [CachedFilterBank] *)

Section InitFacts.
Context `{G : Generator} `{X : Numerics} `{S : Storage}.

(** What [FilterBank.__init__] stores when it returns. *)
Lemma FilterBank_init_Ok_inv (filename_ : string) (approximant_ : string)
    (filter_length_ : Z) (delta_f_ f_lower_ : Q) (dtype_ : DType)
    (psd_ : option FrequencySeries) (out_ : option (list sample))
    (kwds : gmap string value) (self : FilterBank.t) :
  FilterBank.__init__ filename_ approximant_ filter_length_ delta_f_ f_lower_
    dtype_ psd_ out_ kwds = Ok self ->
  FilterBank.table self = loaded_table filename_
  /\ FilterBank.filter_length self = filter_length_
  /\ FilterBank.delta_f self = delta_f_
  /\ FilterBank.f_lower self = f_lower_
  /\ FilterBank.psd self = psd_
  /\ FilterBank.out self = out_
  /\ FilterBank.sigmasq_vec self
     = match psd_ with
       | Some p =>
           if waveform_norm_exists approximant_
           then Some (get_waveform_filter_norm
                        approximant_ p filter_length_ delta_f_ f_lower_)
           else None
       | None => None
       end.
Proof.
  unfold FilterBank.__init__.
  destruct (py_div 1 _) as [dt|e]; [|discriminate].
  destruct (py_div f_lower_ delta_f_) as [k|e]; [|discriminate].
  intros [= <-]. done.
Qed.

(** [FilterBank.__init__] raises exactly when [N * delta_f] is zero. *)
Lemma FilterBank_init_is_Ok (filename_ : string) (approximant_ : string)
    (filter_length_ : Z) (delta_f_ f_lower_ : Q) (dtype_ : DType)
    (psd_ : option FrequencySeries) (out_ : option (list sample))
    (kwds : gmap string value) :
  is_Ok (FilterBank.__init__ filename_ approximant_ filter_length_ delta_f_
           f_lower_ dtype_ psd_ out_ kwds)
  = negb (Qeq_bool (inject_Z ((filter_length_ - 1) * 2) * delta_f_) 0).
Proof.
  unfold FilterBank.__init__, py_div. cbv zeta.
  destruct (Qeq_bool (inject_Z _ * delta_f_) 0) eqn:E1; [done|].
  destruct (Qeq_bool delta_f_ 0) eqn:E2; [|done].
  apply Qeq_bool_iff in E2. apply Qeq_bool_neq in E1.
  destruct E1. rewrite E2. apply Qmult_0_r.
Qed.

Lemma CachedFilterBank_init_Ok_inv (filename cache_name : string)
    (filter_length_ : Z) (delta_f_ f_lower_ : Q) (dtype_ : DType)
    (psd_ : FrequencySeries) (self : CachedFilterBank.t) :
  CachedFilterBank.__init__ filename cache_name filter_length_ delta_f_
    f_lower_ dtype_ psd_ = Ok self ->
  CachedFilterBank.table self = loaded_table filename
  /\ h5py_File cache_name = Ok (CachedFilterBank.cache self)
  /\ CachedFilterBank.filter_length self = filter_length_
  /\ CachedFilterBank.N self = ((filter_length_ - 1) * 2)%Z
  /\ CachedFilterBank.dtype self = dtype_
  /\ CachedFilterBank.psd self = psd_
  /\ CachedFilterBank.f_lower self = f_lower_
  /\ CachedFilterBank.sigmasq_vec self = None.
Proof.
  unfold CachedFilterBank.__init__.
  destruct (h5py_File cache_name) as [store|e]; [|discriminate].
  intros [= <-]. done.
Qed.

Lemma CachedFilterBank_init_is_Ok (filename cache_name : string)
    (filter_length_ : Z) (delta_f_ f_lower_ : Q) (dtype_ : DType)
    (psd_ : FrequencySeries) :
  is_Ok (CachedFilterBank.__init__ filename cache_name filter_length_
           delta_f_ f_lower_ dtype_ psd_)
  = is_Ok (h5py_File cache_name).
Proof.
  unfold CachedFilterBank.__init__. by destruct (h5py_File cache_name).
Qed.

(** What a cached access that returns a filter went through. *)
Lemma CachedFilterBank_getitem_Ok_inv (self : CachedFilterBank.t) (index : Z)
    (h : Filter) :
  CachedFilterBank.__getitem__ self index = Ok h ->
  exists raw template d n row,
    CachedFilterBank.cache self !! (pretty index : string) = Some raw
    /\ CachedFilterBank.padded_and_rolled self
         (CachedFilterBank.cached_series self raw) = Ok template
    /\ resize (fs_data (to_frequencyseries template))
         (CachedFilterBank.filter_length self) = Ok d
    /\ py_getitem (CachedFilterBank.table self) index = Ok (n, row)
    /\ h = {| series := {| fs_data := d;
                           fs_delta_f :=
                             fs_delta_f (to_frequencyseries template);
                           fs_dtype :=
                             fs_dtype (to_frequencyseries template) |};
              end_frequency := None;
              end_idx := None;
              params := Some n;
              sigmasq_attr :=
                Some (sigmasq
                        {| fs_data := d;
                           fs_delta_f :=
                             fs_delta_f (to_frequencyseries template);
                           fs_dtype :=
                             fs_dtype (to_frequencyseries template) |}
                        (CachedFilterBank.psd self)
                        (CachedFilterBank.f_lower self));
              length_in_time := None |}.
Proof.
  unfold CachedFilterBank.__getitem__.
  destruct (CachedFilterBank.cache self !! _) as [raw|] eqn:Hraw;
    [|discriminate].
  destruct (CachedFilterBank.padded_and_rolled _ _) as [template|e] eqn:Htpl;
    [|discriminate].
  destruct (resize _ _) as [d|e] eqn:Hd; [|discriminate].
  destruct (py_getitem _ _) as [[n row]|e] eqn:Hrow; [|discriminate].
  intros [= <-]. by exists raw, template, d, n, row.
Qed.

End InitFacts.

(** ** The end frequency and its bin *)

Section EndFrequency.
Context `{G : Generator} `{X : Numerics}.
Import FilterBank.


(** In binary64 the quotient of line 146 can round up to [filter_length]:
    with 17 bins and [delta_f = 0.1], a reported end frequency [1.7] is
    below [17 * 0.1] and is kept, and [int(1.7 / 0.1)] is 17, the position
    after the last entry of a normalisation vector of 17 entries.  It can
    also round down: with 44 bins, [delta_f = 0.1] and no reported end
    frequency, the bin is 42, not 43. *)
Lemma binary64_end_idx_rounds_up :
  Binary64.clamp_f_end 17 Binary64.tenth (Some Binary64.seventeen_tenths)
  = Some Binary64.seventeen_tenths
  /\ Binary64.end_idx 17 Binary64.tenth Binary64.tenth
       (Some Binary64.seventeen_tenths) = Some 17%Z
  /\ (forall vec : list Q,
        length vec = 17%nat -> py_getitem vec 17 = Raise IndexError)
  /\ Binary64.end_idx 44 Binary64.tenth Binary64.tenth None = Some 42%Z.
Proof.
  split; [vm_compute; reflexivity|]. split; [vm_compute; reflexivity|].
  split; [|vm_compute; reflexivity].
  intros vec Hlen. unfold py_getitem. rewrite Hlen. reflexivity.
Qed.

End EndFrequency.

Section EndFrequencyRun.
Import Toy.




End EndFrequencyRun.

(** ** The normalisation *)

Section Normalization.
Context `{G : Generator} `{X : Numerics}.
Import FilterBank.

(** C2.  Whenever [__getitem__] returns a filter: without a noise spectrum
    its [sigmasq] is left unset; with a spectrum and a normalisation vector
    it is the vector's entry at [end_idx] times the square of
    [DYN_RANGE_FAC] times the amplitude norm the generator reports for the
    row (1 when it reports none); with a spectrum and no vector it is the
    inner product [sigmasq] of the returned series with the spectrum from
    [f_lower]. *)
Theorem C2_sigma_squared (index : Z) (self self' : t) (h : Filter) :
  __getitem__ index self = (self', Ok h) ->
  exists n row k amp,
    py_getitem (table self) index = Ok (n, row)
    /\ end_idx h = Some k
    /\ (get_template_amplitude_norm row (approximant self) (extra_args self)
        = None -> amp = 1%Q)
    /\ (forall a, get_template_amplitude_norm
                    row (approximant self) (extra_args self) = Some a ->
                  amp = a)
    /\ (psd self = None -> sigmasq_attr h = None)
    /\ (forall p vec, psd self = Some p -> sigmasq_vec self = Some vec ->
          exists pos v,
            py_getitem vec k = Ok (pos, v)
            /\ sigmasq_attr h = Some (v * (DYN_RANGE_FAC * amp) ^ 2)%Q)
    /\ (forall p, psd self = Some p -> sigmasq_vec self = None ->
          sigmasq_attr h = Some (sigmasq (series h) p (f_lower self))).
Proof.
  intros Hget.
  destruct (getitem_Ok_inv index self self' h Hget)
    as (tempout & n & row & distance & q & sig
        & _ & Hrow & _ & _ & Hnorm & _ & ->).
  exists n, row, (py_int q).
  exists (match get_template_amplitude_norm
                  row (approximant self) (extra_args self) with
          | None => 1%Q
          | Some a => a
          end).
  split; [done|]. split; [done|].
  split; [by intros ->|]. split; [by intros a ->|].
  simpl. unfold normalization in Hnorm.
  destruct (psd self) as [p|].
  - destruct (sigmasq_vec self) as [vec|].
    + destruct (py_getitem vec (py_int q)) as [[pos v]|e] eqn:Hv;
        [|discriminate].
      injection Hnorm as <-.
      split; [discriminate|]. split; [|discriminate].
      intros p' vec' [= <-] [= <-]. by exists pos, v.
    + injection Hnorm as <-.
      split; [discriminate|]. split; [discriminate|].
      by intros p' [= <-] _.
  - injection Hnorm as <-. split; [done|]. split; discriminate.
Qed.

End Normalization.

Section NormalizationRun.
Import Toy.

Lemma C2_sigma_squared_witness :
  exists self' h,
    FilterBank.__getitem__ 1 normed = (self', Ok h)
    /\ exists n row k amp,
         py_getitem (FilterBank.table normed) 1 = Ok (n, row)
         /\ end_idx h = Some k
         /\ (get_template_amplitude_norm row "SPAtmplt" ∅ = None -> amp = 1%Q)
         /\ (forall a, get_template_amplitude_norm row "SPAtmplt" ∅ = Some a ->
                       amp = a)
         /\ (FilterBank.psd normed = None -> sigmasq_attr h = None)
         /\ (forall p vec, FilterBank.psd normed = Some p ->
                           FilterBank.sigmasq_vec normed = Some vec ->
               exists pos v,
                 py_getitem vec k = Ok (pos, v)
                 /\ sigmasq_attr h = Some (v * (DYN_RANGE_FAC * amp) ^ 2)%Q)
         /\ (forall p, FilterBank.psd normed = Some p ->
                       FilterBank.sigmasq_vec normed = None ->
               sigmasq_attr h = Some (sigmasq (series h) p 1)).
Proof.
  eexists _, _. split; [vm_compute; reflexivity|].
  eapply (C2_sigma_squared 1 normed). vm_compute. reflexivity.
Defined.

End NormalizationRun.

(** ** The write-back of the duration *)

Section Duration.
Context `{G : Generator} `{X : Numerics}.
Import FilterBank.

(** C7.  A call that returns a filter attaches to it exactly the duration
    the generator reported (none when it reported none), and writes it to
    [template_duration] of the row the index addresses, leaving the table
    as it was when none was reported; a call that raises leaves the table
    as it was.  Over any sequence of operations the table keeps its length,
    every row keeps every attribute other than [template_duration], and a
    row that no indexed access of the sequence addresses is unchanged.
    ([CachedFilterBank.__getitem__] is a function of the bank: it has no
    state to change.) *)
Theorem C7_duration_written_back (index : Z) (self : t) (ops : list op) :
  match __getitem__ index self with
  | (self', Ok h) =>
      exists tempout n row distance,
        select_tempout self = Ok tempout
        /\ py_getitem (table self) index = Ok (n, row)
        /\ py_div 1 DYN_RANGE_FAC = Ok distance
        /\ length_in_time h
           = gen_length_in_time (generate self tempout row distance)
        /\ match length_in_time h with
           | Some d =>
               table self' = set_template_duration n d (table self)
               /\ table self' !! n
                  = Some (<["template_duration" := VFloat d]> row)
           | None => table self' = table self
           end
  | (self', Raise _) => table self' = table self
  end
  /\ length (table (run ops self)) = length (table self)
  /\ forall (j : nat) (row : Row),
       table self !! j = Some row ->
       exists row' : Row,
         table (run ops self) !! j = Some row'
         /\ (forall key, key <> "template_duration" ->
                         row' !! key = row !! key)
         /\ ((forall i, GetItem i ∈ ops ->
                        py_index (length (table self)) i <> Some j) ->
             row' = row).
Proof.
  split; [|split; [apply run_table_length|apply run_rows]].
  destruct (__getitem__ index self) as [self' [h|e]] eqn:Hget.
  - destruct (getitem_Ok_inv index self self' h Hget)
      as (tempout & n & row & distance & q & sig
          & Htemp & Hrow & Hdist & _ & _ & -> & ->).
    exists tempout, n, row, distance. simpl.
    split; [done|]. split; [done|]. split; [done|]. split; [done|].
    rewrite table_cache_duration, table_write_out.
    destruct (gen_length_in_time _) as [d|]; [|done].
    split; [done|]. rewrite lookup_set_template_duration_eq.
    apply py_getitem_Ok in Hrow as [_ ->]. done.
  - rewrite getitem_unfold in Hget.
    destruct (select_tempout self) as [tempout|e1];
      [|by injection Hget as <- _].
    destruct (py_getitem (table self) index) as [[m row]|e1];
      [|by injection Hget as <- _].
    destruct (py_div 1 DYN_RANGE_FAC) as [distance|e1];
      [|injection Hget as <- _; apply table_write_out].
    cbv zeta in Hget.
    destruct (py_div _ _) as [q|e1];
      [|injection Hget as <- _; apply table_write_out].
    destruct (normalization _ _ _ _) as [sig|e1]; [discriminate|].
    injection Hget as <- _. apply table_write_out.
Qed.

End Duration.

Section DurationRun.
Import Toy.

Lemma C7_duration_written_back_witness :
  (exists self' h,
     FilterBank.__getitem__ 0 synth = (self', Ok h)
     /\ length_in_time h = Some 7%Q
     /\ FilterBank.table self' !! 0%nat
        = Some (<["template_duration" := VFloat 7]> row0))
  /\ FilterBank.table (run [GetItem 0; GetItem 1] synth) !! 2%nat
     = Some row2.
Proof.
  destruct (C7_duration_written_back 0 synth [GetItem 0; GetItem 1])
    as (Hcall & _ & Hrows).
  split.
  - destruct (FilterBank.__getitem__ 0 synth) as [self' [h|e]] eqn:E.
    + exists self', h. split; [reflexivity|].
      destruct Hcall as (tempout & n & row & distance & Ht & Hr & Hd
                         & Hlen & Htab).
      vm_compute in Ht. injection Ht as <-.
      vm_compute in Hr. injection Hr as <- <-.
      vm_compute in Hd. injection Hd as <-.
      assert (H7 : length_in_time h = Some 7%Q).
      { rewrite Hlen. vm_compute. reflexivity. }
      rewrite H7 in Htab. split; [exact H7|]. exact (proj2 Htab).
    + vm_compute in E. discriminate E.
  - destruct (Hrows 2%nat row2 eq_refl) as (row' & Hl & _ & Hsame).
    rewrite Hl. f_equal. apply Hsame. intros i Hi.
    apply elem_of_cons in Hi as [[= ->]|Hi]; [vm_compute; discriminate|].
    apply elem_of_cons in Hi as [[= ->]|Hi]; [vm_compute; discriminate|].
    by apply elem_of_nil in Hi.
Defined.

End DurationRun.

(** ** The normalisation vector *)

Section NormalizationVector.
Context `{G : Generator} `{X : Numerics} `{S : Storage}.

(** C8.  After [FilterBank.__init__] the vector [sigmasq_vec] is present
    exactly when a noise spectrum was given and the approximant has a
    precomputed normalisation; when present it is what
    [get_waveform_filter_norm] computes from the approximant, the spectrum,
    [filter_length], [delta_f] and [f_lower] given to the constructor; and
    no sequence of later operations on the bank changes it. *)
Theorem C8_normalization_vector_fixed (filename_ : string)
    (approximant_ : string) (filter_length_ : Z) (delta_f_ f_lower_ : Q)
    (dtype_ : DType) (psd_ : option FrequencySeries)
    (out_ : option (list sample)) (kwds : gmap string value)
    (self : FilterBank.t) (ops : list op) :
  FilterBank.__init__ filename_ approximant_ filter_length_ delta_f_ f_lower_
    dtype_ psd_ out_ kwds = Ok self ->
  (is_Some (FilterBank.sigmasq_vec self)
   <-> is_Some psd_ /\ waveform_norm_exists approximant_ = true)
  /\ (forall vec, FilterBank.sigmasq_vec self = Some vec ->
        exists p, psd_ = Some p
                  /\ vec = get_waveform_filter_norm
                             approximant_ p filter_length_ delta_f_ f_lower_)
  /\ FilterBank.sigmasq_vec (run ops self) = FilterBank.sigmasq_vec self.
Proof.
  intros Hinit.
  destruct (FilterBank_init_Ok_inv _ _ _ _ _ _ _ _ _ _ Hinit)
    as (_ & _ & _ & _ & _ & _ & Hvec).
  split; [|split; [|apply run_sigmasq_vec]].
  - rewrite Hvec. destruct psd_ as [p|].
    + destruct (waveform_norm_exists approximant_).
      * split; [done|]. intros _. by eexists.
      * split; [by intros [? ?]|]. by intros [_ ?].
    + split; [by intros [? ?]|]. by intros [[? ?] _].
  - intros vec Hsome. rewrite Hvec in Hsome. destruct psd_ as [p|]; [|done].
    destruct (waveform_norm_exists approximant_); [|done].
    injection Hsome as <-. by exists p.
Qed.

End NormalizationVector.

Section NormalizationVectorRun.
Import Toy.

Lemma C8_normalization_vector_fixed_witness :
  (is_Some (FilterBank.sigmasq_vec normed)
   <-> is_Some (Some flat_psd) /\ waveform_norm_exists "SPAtmplt" = true)
  /\ (forall vec, FilterBank.sigmasq_vec normed = Some vec ->
        exists p, Some flat_psd = Some p
                  /\ vec = get_waveform_filter_norm "SPAtmplt" p 5 (1 # 4) 1)
  /\ FilterBank.sigmasq_vec (run [GetItem 0; Len; GetItem 1; GetItem 7] normed)
     = FilterBank.sigmasq_vec normed.
Proof.
  apply (C8_normalization_vector_fixed "bank.xml" "SPAtmplt" 5 (1 # 4) 1
           complex128 (Some flat_psd) None ∅ normed).
  reflexivity.
Defined.

End NormalizationVectorRun.

(** ** Length and rows *)

Section LenAndParams.
Context `{G : Generator} `{X : Numerics} `{S : Storage}.

Lemma run_snoc (ops : list op) (o : op) (self : FilterBank.t) :
  run (ops ++ [o]) self = step (run ops self) o.
Proof. unfold run. by rewrite foldl_app. Qed.

(** C9.  For a [FilterBank], at construction and after any sequence of
    operations, [len(bank)] is the number of rows of the loaded table, and
    a filter returned for an index refers to the row object at the position
    the index addresses, which is the loaded row in every attribute other
    than the written-back [template_duration].  For a [CachedFilterBank],
    [len(bank)] is the number of rows of the loaded table and a returned
    filter refers to the row at the position the index addresses. *)
Theorem C9_len_and_params (filename_ cache_name : string)
    (approximant_ : string) (filter_length_ : Z) (delta_f_ f_lower_ : Q)
    (dtype_ : DType) (psd_ : option FrequencySeries)
    (out_ : option (list sample)) (kwds : gmap string value)
    (cfilter_length_ : Z) (cdelta_f_ cf_lower_ : Q) (cdtype_ : DType)
    (cpsd_ : FrequencySeries)
    (fb : FilterBank.t) (cb : CachedFilterBank.t) (ops : list op) :
  (FilterBank.__init__ filename_ approximant_ filter_length_ delta_f_
     f_lower_ dtype_ psd_ out_ kwds = Ok fb ->
   FilterBank.__len__ (run ops fb)
   = Z.of_nat (length (loaded_table filename_))
   /\ forall index fb' h,
        FilterBank.__getitem__ index (run ops fb) = (fb', Ok h) ->
        exists (n : nat) (row row' : Row),
          py_getitem (loaded_table filename_) index = Ok (n, row)
          /\ params h = Some n
          /\ FilterBank.table fb' !! n = Some row'
          /\ forall key, key <> "template_duration" ->
                         row' !! key = row !! key)
  /\ (CachedFilterBank.__init__ filename_ cache_name cfilter_length_
        cdelta_f_ cf_lower_ cdtype_ cpsd_ = Ok cb ->
      CachedFilterBank.__len__ cb
      = Z.of_nat (length (loaded_table filename_))
      /\ forall index h,
           CachedFilterBank.__getitem__ cb index = Ok h ->
           exists (n : nat) (row : Row),
             py_getitem (loaded_table filename_) index = Ok (n, row)
             /\ params h = Some n
             /\ CachedFilterBank.table cb !! n = Some row).
Proof.
  split.
  - intros Hinit.
    destruct (FilterBank_init_Ok_inv _ _ _ _ _ _ _ _ _ _ Hinit) as [Htab _].
    split.
    { unfold FilterBank.__len__. by rewrite run_table_length, Htab. }
    intros index fb' h Hget.
    destruct (getitem_Ok_inv index _ fb' h Hget)
      as (tempout & n & r1 & distance & q & sig
          & _ & Hrow & _ & _ & _ & _ & ->).
    apply py_getitem_Ok in Hrow as [Hidx _].
    rewrite run_table_length, Htab in Hidx.
    destruct (py_index_Some _ _ _ Hidx) as [Hlt _].
    destruct (lookup_lt_is_Some_2 (loaded_table filename_) n Hlt)
      as [row Hn].
    assert (Hn' : FilterBank.table fb !! n = Some row) by by rewrite Htab.
    destruct (run_rows (ops ++ [GetItem index]) fb n row Hn')
      as (row' & Hrow' & Hkeys & _).
    rewrite run_snoc in Hrow'. simpl in Hrow'. rewrite Hget in Hrow'.
    exists n, row, row'. split; [by apply py_getitem_Ok|]. done.
  - intros Hinit.
    destruct (CachedFilterBank_init_Ok_inv _ _ _ _ _ _ _ _ Hinit)
      as [Htab _].
    split.
    { unfold CachedFilterBank.__len__. by rewrite Htab. }
    intros index h Hget.
    destruct (CachedFilterBank_getitem_Ok_inv cb index h Hget)
      as (raw & template & d & n & row & _ & _ & _ & Hrow & ->).
    exists n, row. rewrite <- Htab. split; [done|]. split; [done|].
    by apply py_getitem_Ok in Hrow as [_ ?].
Qed.

End LenAndParams.

Section LenAndParamsRun.
Import Toy.

Lemma C9_len_and_params_witness :
  (FilterBank.__len__ (run [GetItem 0] synth) = 3%Z
   /\ exists fb' h,
        FilterBank.__getitem__ (-3) (run [GetItem 0] synth) = (fb', Ok h)
        /\ exists (n : nat) (row row' : Row),
             py_getitem (loaded_table "bank.xml") (-3) = Ok (n, row)
             /\ params h = Some n
             /\ FilterBank.table fb' !! n = Some row'
             /\ forall key, key <> "template_duration" ->
                            row' !! key = row !! key)
  /\ (CachedFilterBank.__len__ cached = 3%Z
      /\ exists h,
           CachedFilterBank.__getitem__ cached 1 = Ok h
           /\ exists (n : nat) (row : Row),
                py_getitem (loaded_table "bank.xml") 1 = Ok (n, row)
                /\ params h = Some n
                /\ CachedFilterBank.table cached !! n = Some row).
Proof.
  destruct (C9_len_and_params "bank.xml" "cache.hdf" "TaylorF2" 5 (1 # 4) 1
              complex128 None None ∅ 2 (1 # 4) 1 complex128 flat_psd
              synth cached [GetItem 0]) as [Hf Hc].
  destruct (Hf eq_refl) as [Hlen Hget].
  destruct (Hc eq_refl) as [Hclen Hcget].
  split.
  - split; [exact Hlen|]. eexists _, _. split; [vm_compute; reflexivity|].
    eapply Hget. vm_compute. reflexivity.
  - split; [exact Hclen|]. eexists. split; [vm_compute; reflexivity|].
    eapply Hcget. vm_compute. reflexivity.
Defined.

End LenAndParamsRun.

(** ** An unreadable template file *)

Section UnreadableFile.
Context `{G : Generator} `{X : Numerics} `{S : Storage}.

(** C4.  When reading the template file raises, whatever the reason,
    neither constructor raises because of it: [FilterBank.__init__] raises
    exactly when [N * delta_f] is zero and [CachedFilterBank.__init__]
    exactly when the cache cannot be opened; and the bank either of them
    returns has an empty table, so its length is 0. *)
Theorem C4_unreadable_file_empty_table (filename_ cache_name : string)
    (approximant_ : string) (filter_length_ : Z) (delta_f_ f_lower_ : Q)
    (dtype_ : DType) (psd_ : option FrequencySeries)
    (out_ : option (list sample)) (kwds : gmap string value)
    (cfilter_length_ : Z) (cdelta_f_ cf_lower_ : Q) (cdtype_ : DType)
    (cpsd_ : FrequencySeries)
    (fb : FilterBank.t) (cb : CachedFilterBank.t) :
  load_table filename_ = None ->
  (is_Ok (FilterBank.__init__ filename_ approximant_ filter_length_ delta_f_
            f_lower_ dtype_ psd_ out_ kwds)
   = negb (Qeq_bool (inject_Z ((filter_length_ - 1) * 2) * delta_f_) 0)
   /\ (FilterBank.__init__ filename_ approximant_ filter_length_ delta_f_
         f_lower_ dtype_ psd_ out_ kwds = Ok fb ->
       FilterBank.table fb = [] /\ FilterBank.__len__ fb = 0%Z))
  /\ (is_Ok (CachedFilterBank.__init__ filename_ cache_name cfilter_length_
               cdelta_f_ cf_lower_ cdtype_ cpsd_)
      = is_Ok (h5py_File cache_name)
      /\ (CachedFilterBank.__init__ filename_ cache_name cfilter_length_
            cdelta_f_ cf_lower_ cdtype_ cpsd_ = Ok cb ->
          CachedFilterBank.table cb = []
          /\ CachedFilterBank.__len__ cb = 0%Z)).
Proof.
  intros Hload.
  assert (Hempty : loaded_table filename_ = []).
  { unfold loaded_table. by rewrite Hload. }
  split; split.
  - apply FilterBank_init_is_Ok.
  - intros Hinit.
    destruct (FilterBank_init_Ok_inv _ _ _ _ _ _ _ _ _ _ Hinit) as [Htab _].
    unfold FilterBank.__len__. by rewrite Htab, Hempty.
  - apply CachedFilterBank_init_is_Ok.
  - intros Hinit.
    destruct (CachedFilterBank_init_Ok_inv _ _ _ _ _ _ _ _ Hinit)
      as [Htab _].
    unfold CachedFilterBank.__len__. by rewrite Htab, Hempty.
Qed.

End UnreadableFile.

Section UnreadableFileRun.
Import Toy.

Lemma C4_unreadable_file_empty_table_witness :
  load_table "missing.xml" = None
  /\ (exists fb,
        FilterBank.__init__ "missing.xml" "TaylorF2" 5 (1 # 4) 1 complex128
          None None ∅ = Ok fb
        /\ FilterBank.table fb = [] /\ FilterBank.__len__ fb = 0%Z)
  /\ (exists cb,
        CachedFilterBank.__init__ "missing.xml" "cache.hdf" 2 (1 # 4) 1
          complex128 flat_psd = Ok cb
        /\ CachedFilterBank.table cb = []
        /\ CachedFilterBank.__len__ cb = 0%Z).
Proof.
  assert (H := fun fb cb =>
            C4_unreadable_file_empty_table "missing.xml" "cache.hdf"
              "TaylorF2" 5 (1 # 4) 1 complex128 None None ∅
              2 (1 # 4) 1 complex128 flat_psd fb cb eq_refl).
  split; [reflexivity|]. split.
  - eexists. split; [reflexivity|].
    eapply (proj2 (proj1 (H _ cached))). reflexivity.
  - eexists. split; [reflexivity|].
    eapply (proj2 (proj2 (H synth _))). reflexivity.
Defined.

End UnreadableFileRun.

(** ** The replay path *)

Section Replay.
Context `{X : Numerics} `{S : Storage}.
Import CachedFilterBank.

Lemma length_cached_series (self : t) (raw : list sample) :
  length (ts_data (cached_series self raw)) = length raw.
Proof. simpl. by rewrite length_map. Qed.

(** C3 (as amended).  For a bank of at least one bin with
    [N = 2 * (filter_length - 1)], and an index with a cache entry of [L]
    samples and a table row: the samples are read at the fixed step
    [1/4096] whatever the bank's [delta_f]; the series handed to the
    transform has exactly [N] samples; when [L <= N] it is the entry
    zero-padded to [N] samples and rolled back by [L], that is [N - L]
    zeros followed by the entry; when [L > N] the entry is cut to its first
    [N] samples (not padded) before the roll; and the transform's result is
    resized to exactly [filter_length] bins, which are the data of the
    returned filter.  In particular an entry of 2048 samples with
    [filter_length = 1025] gives exactly 1025 bins. *)
Theorem C3_cached_pipeline (self : t) (index : Z) (raw : list sample)
    (n : nat) (row : Row) :
  (1 <= filter_length self)%Z ->
  N self = ((filter_length self - 1) * 2)%Z ->
  cache self !! (pretty index : string) = Some raw ->
  py_getitem (table self) index = Ok (n, row) ->
  let entry := map (cast (fs_dtype (psd self))) raw in
  let L := length raw in
  exists template d h,
    padded_and_rolled self (cached_series self raw) = Ok template
    /\ ts_delta_t template = (1 / 4096)%Q
    /\ Z.of_nat (length (ts_data template)) = N self
    /\ ((Z.of_nat L <= N self)%Z ->
        ts_data template
        = roll (entry ++ replicate (Z.to_nat (N self) - L) zero)
               (- Z.of_nat L)
        /\ ts_data template = replicate (Z.to_nat (N self) - L) zero ++ entry)
    /\ ((N self < Z.of_nat L)%Z ->
        ts_data template
        = roll (take (Z.to_nat (N self)) entry) (- Z.of_nat L))
    /\ resize (fs_data (to_frequencyseries template)) (filter_length self)
       = Ok d
    /\ Z.of_nat (length d) = filter_length self
    /\ __getitem__ self index = Ok h
    /\ fs_data (series h) = d.
Proof.
  intros Hfl HN Hraw Hrow entry L.
  assert (HN0 : (0 <= N self)%Z) by lia.
  assert (Hlen : length entry = L) by apply length_map.
  assert (Hfl0 : (0 <= filter_length self)%Z) by lia.
  unfold __getitem__, padded_and_rolled. rewrite Hraw.
  rewrite length_cached_series.
  change (ts_data (cached_series self raw)) with entry.
  rewrite (resize_Ok entry (N self) HN0), Hlen.
  match goal with
  | |- context [to_frequencyseries ?t] => set (template := t)
  end.
  rewrite (resize_Ok (fs_data (to_frequencyseries template))
             (filter_length self) Hfl0).
  rewrite Hrow.
  eexists template, _, _.
  split; [done|]. split; [done|]. split.
  { subst template. cbn [ts_data]. rewrite length_roll.
    rewrite length_app, length_take, length_replicate. lia. }
  split.
  { intros HL. subst template. cbn [ts_data].
    rewrite take_ge by lia.
    split; [done|]. fold L. rewrite <- Hlen. apply roll_padded. }
  split.
  { intros HL. subst template. cbn [ts_data].
    replace (Z.to_nat (N self) - L)%nat with 0%nat by lia.
    simpl. by rewrite app_nil_r. }
  split; [by apply resize_Ok|]. split; [|done].
  rewrite length_app, length_take, length_replicate. lia.
Qed.

(** C5.  The constructor leaves [sigmasq_vec] unset.  A cached access that
    returns a filter has read the entry that the opened cache holds under
    [str(index)], built the padded and rolled series from it, transformed
    that series and resized the transform to [filter_length] bins; the
    filter's series is that resized transform, and its [sigmasq] is
    [sigmasq] of that series with the constructor's noise spectrum and
    [f_lower].  No access reads [sigmasq_vec]: the result is the same
    whatever that attribute holds.  The filter has neither [end_frequency]
    nor [end_idx]. *)
Theorem C5_cached_sigma_direct (filename cache_name : string)
    (filter_length_ : Z) (delta_f_ f_lower_ : Q) (dtype_ : DType)
    (psd_ : FrequencySeries) (self : t) (index : Z) (h : Filter) :
  __init__ filename cache_name filter_length_ delta_f_ f_lower_ dtype_ psd_
  = Ok self ->
  __getitem__ self index = Ok h ->
  sigmasq_vec self = None
  /\ (exists store raw template d,
        h5py_File cache_name = Ok store
        /\ store !! (pretty index : string) = Some raw
        /\ padded_and_rolled self (cached_series self raw) = Ok template
        /\ resize (fs_data (to_frequencyseries template)) filter_length_
           = Ok d
        /\ series h
           = {| fs_data := d;
                fs_delta_f := fs_delta_f (to_frequencyseries template);
                fs_dtype := fs_dtype (to_frequencyseries template) |}
        /\ sigmasq_attr h = Some (sigmasq (series h) psd_ f_lower_))
  /\ (forall vec index',
        __getitem__ (with_sigmasq_vec vec self) index'
        = __getitem__ self index')
  /\ end_frequency h = None
  /\ end_idx h = None.
Proof.
  intros Hinit Hget.
  destruct (CachedFilterBank_init_Ok_inv _ _ _ _ _ _ _ _ Hinit)
    as (_ & Hstore & Hfl & _ & _ & Hpsd & Hlow & Hvec).
  destruct (CachedFilterBank_getitem_Ok_inv self index h Hget)
    as (raw & template & d & n & row & Hraw & Htpl & Hd & _ & ->).
  split; [done|]. split.
  { exists (cache self), raw, template, d. cbn [series sigmasq_attr].
    by rewrite <- Hfl, <- Hpsd, <- Hlow. }
  done.
Qed.

(** C10.  The constructor stores its [dtype] argument; indexed access does
    not read it: the series built from a cache entry, before and after the
    resize and roll, has the type of the noise spectrum, the result of
    [__getitem__] is the same whatever the stored [dtype], and two banks
    constructed alike but for [dtype] return the same for every index. *)
Theorem C10_dtype_unused (filename cache_name : string)
    (filter_length_ : Z) (delta_f_ f_lower_ : Q) (dtype_ other : DType)
    (psd_ : FrequencySeries) (self self2 : t) (index : Z) :
  __init__ filename cache_name filter_length_ delta_f_ f_lower_ dtype_ psd_
  = Ok self ->
  __init__ filename cache_name filter_length_ delta_f_ f_lower_ other psd_
  = Ok self2 ->
  dtype self = dtype_
  /\ dtype self2 = other
  /\ (forall raw, ts_dtype (cached_series self raw) = fs_dtype psd_)
  /\ (forall raw template,
        padded_and_rolled self (cached_series self raw) = Ok template ->
        ts_dtype template = fs_dtype psd_)
  /\ __getitem__ (with_dtype other self) index = __getitem__ self index
  /\ __getitem__ self2 index = __getitem__ self index.
Proof.
  unfold __init__. destruct (h5py_File cache_name) as [store|e]; [|done].
  intros [= <-] [= <-]. split; [done|]. split; [done|]. split; [done|].
  split; [|done].
  intros raw template. unfold padded_and_rolled.
  destruct (resize _ _) as [d|e]; [|done]. by intros [= <-].
Qed.

End Replay.

Section ReplayRun.
Import Toy.

(** C3, the claim as stated fails: the first entry of [Toy.cached] has
    three samples and [N] is 2.  The series handed to the transform has two
    samples, its third sample is lost, and it is not the roll of any
    zero-padding of the entry. *)
Lemma C3_long_entry_truncated :
  CachedFilterBank.__init__ "bank.xml" "cache.hdf" 2 (1 # 4) 1 complex128
    flat_psd = Ok cached
  /\ CachedFilterBank.cache cached !! (pretty 0%Z : string)
  = Some [real 1; real 2; real 3]
  /\ CachedFilterBank.N cached = 2%Z
  /\ CachedFilterBank.padded_and_rolled cached
       (CachedFilterBank.cached_series cached [real 1; real 2; real 3])
     = Ok {| ts_data := [real 2; real 1];
             ts_delta_t := 1 / 4096;
             ts_dtype := float32 |}
  /\ ~ (exists k : nat,
          [real 2; real 1]
          = roll ([real 1; real 2; real 3] ++ replicate k zero) (- 3)).
Proof.
  split; [reflexivity|].
  split; [reflexivity|]. split; [reflexivity|]. split; [reflexivity|].
  intros [k Hk].
  assert (Hroll : roll ([real 1; real 2; real 3] ++ replicate k zero) (- 3)
                  = replicate k zero ++ [real 1; real 2; real 3])
    by exact (roll_padded [real 1; real 2; real 3] k).
  rewrite Hroll in Hk.
  apply (f_equal length) in Hk. rewrite length_app, length_replicate in Hk.
  simpl in Hk. lia.
Qed.

Lemma C3_cached_pipeline_witness :
  exists template d h,
    CachedFilterBank.padded_and_rolled cached_1025
      (CachedFilterBank.cached_series cached_1025 (replicate 2048 (real 1)))
    = Ok template
    /\ ts_delta_t template = (1 / 4096)%Q
    /\ Z.of_nat (length (ts_data template)) = 2048%Z
    /\ ((Z.of_nat (length (replicate 2048 (real 1))) <= 2048)%Z ->
        ts_data template
        = roll (map (cast float32) (replicate 2048 (real 1))
                  ++ replicate (Z.to_nat 2048
                                - length (replicate 2048 (real 1))) zero)
               (- Z.of_nat (length (replicate 2048 (real 1))))
        /\ ts_data template
           = replicate (Z.to_nat 2048 - length (replicate 2048 (real 1))) zero
               ++ map (cast float32) (replicate 2048 (real 1)))
    /\ ((2048 < Z.of_nat (length (replicate 2048 (real 1))))%Z ->
        ts_data template
        = roll (take (Z.to_nat 2048)
                  (map (cast float32) (replicate 2048 (real 1))))
               (- Z.of_nat (length (replicate 2048 (real 1)))))
    /\ resize (fs_data (to_frequencyseries template)) 1025 = Ok d
    /\ Z.of_nat (length d) = 1025%Z
    /\ CachedFilterBank.__getitem__ cached_1025 2 = Ok h
    /\ fs_data (series h) = d.
Proof.
  apply (C3_cached_pipeline cached_1025 2 (replicate 2048 (real 1)) 2 row2).
  - simpl. lia.
  - reflexivity.
  - vm_compute. reflexivity.
  - reflexivity.
Defined.

Lemma C5_cached_sigma_direct_witness :
  exists h,
    CachedFilterBank.__getitem__ cached 1 = Ok h
    /\ CachedFilterBank.sigmasq_vec cached = None
    /\ (exists store raw template d,
          h5py_File "cache.hdf" = Ok store
          /\ store !! (pretty 1%Z : string) = Some raw
          /\ CachedFilterBank.padded_and_rolled cached
               (CachedFilterBank.cached_series cached raw) = Ok template
          /\ resize (fs_data (to_frequencyseries template)) 2 = Ok d
          /\ series h
             = {| fs_data := d;
                  fs_delta_f := fs_delta_f (to_frequencyseries template);
                  fs_dtype := fs_dtype (to_frequencyseries template) |}
          /\ sigmasq_attr h = Some (sigmasq (series h) flat_psd 1))
    /\ (forall vec index',
          CachedFilterBank.__getitem__
            (CachedFilterBank.with_sigmasq_vec vec cached) index'
          = CachedFilterBank.__getitem__ cached index')
    /\ end_frequency h = None
    /\ end_idx h = None.
Proof.
  eexists. split; [vm_compute; reflexivity|].
  eapply (C5_cached_sigma_direct "bank.xml" "cache.hdf" 2 (1 # 4) 1
            complex128 flat_psd cached 1).
  - reflexivity.
  - vm_compute. reflexivity.
Defined.

Lemma C10_dtype_unused_witness :
  CachedFilterBank.dtype cached = complex128
  /\ CachedFilterBank.dtype (CachedFilterBank.with_dtype float32 cached)
     = float32
  /\ (forall raw,
        ts_dtype (CachedFilterBank.cached_series cached raw)
        = fs_dtype flat_psd)
  /\ (forall raw template,
        CachedFilterBank.padded_and_rolled cached
          (CachedFilterBank.cached_series cached raw) = Ok template ->
        ts_dtype template = fs_dtype flat_psd)
  /\ CachedFilterBank.__getitem__
       (CachedFilterBank.with_dtype float32 cached) 1
     = CachedFilterBank.__getitem__ cached 1
  /\ CachedFilterBank.__getitem__
       (CachedFilterBank.with_dtype float32 cached) 1
     = CachedFilterBank.__getitem__ cached 1.
Proof.
  apply (C10_dtype_unused "bank.xml" "cache.hdf" 2 (1 # 4) 1 complex128
           float32 flat_psd cached
           (CachedFilterBank.with_dtype float32 cached) 1);
    reflexivity.
Defined.

End ReplayRun.

(** ** The buffer handed to the generator *)

Section Buffer.
Context `{G : Generator} `{X : Numerics}.
Import FilterBank.

Lemma clear_length_eq (o1 o2 : list sample) :
  length o1 = length o2 -> clear o1 = clear o2.
Proof. unfold clear. by intros ->. Qed.


Lemma length_view (self : t) (tempout : list sample) :
  (0 <= filter_length self)%Z ->
  length (view self tempout)
  = (Z.to_nat (filter_length self) `min` length tempout)%nat.
Proof.
  intros Hfl. unfold view. by rewrite length_py_slice_to, length_clear.
Qed.






End Buffer.

Section BufferRun.
Import Toy.





End BufferRun.

(** ** Further properties of [FilterBank] *)

Section FilterBankEdges.
Context `{G : Generator} `{X : Numerics} `{S : Storage}.
Import FilterBank.

Lemma py_index_None (len : nat) (i : Z) :
  (i < - Z.of_nat len \/ Z.of_nat len <= i)%Z -> py_index len i = None.
Proof.
  intros Hi. unfold py_index. destruct (Z.leb_spec 0 i).
  - destruct (Z.ltb_spec i (Z.of_nat len)); [lia|done].
  - destruct (Z.leb_spec (- Z.of_nat len) i); [lia|done].
Qed.

Lemma py_index_negative (len : nat) (k : Z) :
  (1 <= k <= Z.of_nat len)%Z ->
  py_index len (- k) = py_index len (Z.of_nat len - k).
Proof.
  intros Hk. unfold py_index.
  destruct (Z.leb_spec 0 (- k)); [lia|].
  destruct (Z.leb_spec (- Z.of_nat len) (- k)); [|lia].
  destruct (Z.leb_spec 0 (Z.of_nat len - k)); [|lia].
  destruct (Z.ltb_spec (Z.of_nat len - k) (Z.of_nat len)); [|lia].
  do 2 f_equal.
Qed.

(** X1.  An index outside [[-len, len)] makes [__getitem__] raise
    [IndexError] and leaves the bank exactly as it was: the table lookup of
    line 121 comes before the buffer is cleared, so even the caller's
    buffer keeps its contents.  (With private buffers the allocation of
    line 116 comes first, hence the condition on [filter_length].) *)
Theorem X1_index_out_of_range (index : Z) (self : t) :
  (index < - Z.of_nat (length (table self))
   \/ Z.of_nat (length (table self)) <= index)%Z ->
  is_Some (out self) \/ (0 <= filter_length self)%Z ->
  __getitem__ index self = (self, Raise IndexError).
Proof.
  intros Hidx Hbuf. rewrite getitem_unfold.
  assert (Htemp : exists tempout, select_tempout self = Ok tempout).
  { unfold select_tempout. destruct (out self) as [o|] eqn:Ho; [by eexists|].
    destruct Hbuf as [[? ?]|Hfl]; [done|]. eexists. by apply zeros_Ok. }
  destruct Htemp as [tempout ->].
  unfold py_getitem. by rewrite (py_index_None _ _ Hidx).
Qed.

(** X2.  A negative index counts from the end of the table: [bank[-k]] is
    [bank[len - k]], the same filter and the same effect on the bank. *)
Theorem X2_negative_index (k : Z) (self : t) :
  (1 <= k <= Z.of_nat (length (table self)))%Z ->
  __getitem__ (- k) self
  = __getitem__ (Z.of_nat (length (table self)) - k) self.
Proof.
  intros Hk. rewrite !getitem_unfold. unfold py_getitem.
  by rewrite (py_index_negative _ _ Hk).
Qed.

End FilterBankEdges.

Section FilterBankEdgesRun.
Import Toy.

Lemma X1_index_out_of_range_witness :
  FilterBank.__getitem__ 3 short_shared = (short_shared, Raise IndexError)
  /\ FilterBank.__getitem__ (-4) synth = (synth, Raise IndexError).
Proof.
  split.
  - apply (X1_index_out_of_range 3 short_shared).
    + right. simpl. lia.
    + left. by eexists.
  - apply (X1_index_out_of_range (-4) synth).
    + left. simpl. lia.
    + right. simpl. lia.
Defined.

Lemma X2_negative_index_witness :
  FilterBank.__getitem__ (- 1) normed = FilterBank.__getitem__ (3 - 1) normed.
Proof. apply (X2_negative_index 1 normed). simpl. lia. Defined.

End FilterBankEdgesRun.

(** ** What a sequence of operations keeps *)

Section Settings.
Context `{G : Generator} `{X : Numerics} `{S : Storage}.
Import FilterBank.

Lemma same_settings_refl (a : t) : same_settings a a.
Proof. unfold same_settings. repeat split; done. Qed.

Lemma same_settings_trans (a b c : t) :
  same_settings a b -> same_settings b c -> same_settings a c.
Proof. unfold same_settings. intuition congruence. Qed.

Lemma same_settings_write_out (o : list sample) (self : t) :
  same_settings self (write_out o self).
Proof.
  unfold write_out. destruct (out self) as [b|] eqn:E;
    [|apply same_settings_refl].
  unfold same_settings. rewrite E. simpl. repeat split; by eauto.
Qed.

Lemma same_settings_cache_duration (n : nat) (d : option Q) (self : t) :
  same_settings self (cache_duration n d self).
Proof. destruct d; unfold same_settings; simpl; repeat split; done. Qed.

Lemma getitem_same_settings (index : Z) (self : t) :
  same_settings self (fst (__getitem__ index self)).
Proof.
  destruct (getitem_state index self) as (o & d & n & -> & _).
  eapply same_settings_trans; [|apply same_settings_cache_duration].
  destruct o; [apply same_settings_write_out|apply same_settings_refl].
Qed.

Lemma run_same_settings (ops : list op) (self : t) :
  same_settings self (run ops self).
Proof.
  revert self. induction ops as [|o ops IH]; intros self;
    [apply same_settings_refl|].
  rewrite run_cons. eapply same_settings_trans; [|apply IH].
  destruct o as [|index]; [apply same_settings_refl|].
  apply getitem_same_settings.
Qed.

(** X5.  No sequence of [__len__] and [__getitem__] calls changes the
    configuration of a [FilterBank]: its type, cutoff, approximant, file
    name, resolutions, lengths, options, spectrum and normalisation vector
    stay as constructed, and a bank keeps (or keeps lacking) its caller's
    buffer. *)
Theorem X5_settings_kept (ops : list op) (self : t) :
  same_settings self (run ops self).
Proof. apply run_same_settings. Qed.

(** The caller's buffer keeps its length through a call when the generator
    writes in place. *)
Lemma getitem_buffer_length (index : Z) (self : t) :
  keeps_buffer_length ->
  same_buffer_length self (fst (__getitem__ index self)).
Proof.
  intros Hkeep x y Hx. rewrite getitem_unfold.
  unfold select_tempout. rewrite Hx.
  assert (Hw : forall b, out (write_out b self) = Some b).
  { intros b. unfold write_out. by rewrite Hx. }
  assert (Hc : forall n d s, out (cache_duration n d s) = out s).
  { intros n d s. by destruct d. }
  destruct (py_getitem (table self) index) as [[n row]|e];
    [|simpl; rewrite Hx; by intros [= <-]].
  destruct (py_div 1 DYN_RANGE_FAC) as [distance|e].
  2:{ simpl. rewrite Hw. intros [= <-]. by rewrite length_clear. }
  cbv zeta.
  assert (Hlen : length (gen_buffer (generate self x row distance)
                           ++ drop (length (view self x)) (clear x))
                 = length x).
  { rewrite length_app, length_drop, length_clear.
    unfold generate. rewrite Hkeep.
    assert (length (view self x) <= length x)%nat; [|lia].
    unfold view, py_slice_to.
    destruct (0 <=? filter_length self)%Z;
      rewrite length_take, length_clear; lia. }
  destruct (py_div _ _) as [q|e].
  2:{ simpl. rewrite Hw. by intros [= <-]. }
  destruct (normalization _ _ _ _) as [sig|e].
  2:{ simpl. rewrite Hw. by intros [= <-]. }
  simpl. rewrite Hc, Hw. by intros [= <-].
Qed.

(** A call reads the bank through its configuration, the length of the
    caller's buffer and the row its index addresses. *)
Lemma getitem_snd_agree (index : Z) (s1 s2 : t) :
  same_settings s1 s2 -> same_buffer_length s1 s2 ->
  py_getitem (table s1) index = py_getitem (table s2) index ->
  snd (__getitem__ index s1) = snd (__getitem__ index s2).
Proof.
  intros Hset Hbuf Hrow. rewrite !getitem_unfold.
  destruct s1 as [o1 ? ? ? ? ? ? ? ? ? tb1 ? ? ?].
  destruct s2 as [o2 ? ? ? ? ? ? ? ? ? tb2 ? ? ?].
  unfold same_settings, same_buffer_length in *. simpl in *.
  destruct Hset as (<- & <- & <- & <- & <- & <- & <- & <- & <- & <- & <-
                    & <- & Hsome).
  rewrite <- Hrow. clear Hrow.
  unfold select_tempout, generate, view, reported_end, clamp_f_end,
    normalization. simpl.
  assert (Hclear : match o1, o2 with
                   | Some a, Some b => clear a = clear b
                   | None, None => True
                   | _, _ => False
                   end).
  { destruct o1 as [a|], o2 as [b|]; [|exfalso..|done].
    - apply clear_length_eq. by apply Hbuf.
    - destruct Hsome as [Hs _]. by destruct Hs as [? ?]; [eexists|].
    - destruct Hsome as [_ Hs]. by destruct Hs as [? ?]; [eexists|]. }
  destruct o1 as [a|], o2 as [b|]; try done.
  - destruct (py_getitem tb1 index) as [[n row]|e]; [|done].
    destruct (py_div 1 DYN_RANGE_FAC) as [distance|e]; [|done].
    rewrite Hclear.
    destruct (py_div _ _) as [q|e]; [|done].
    match goal with
    | |- context [match ?r with Ok _ => _ | Raise _ => _ end] =>
        destruct r as [sig|e]
    end; done.
  - destruct (zeros _) as [tempout|e]; [|done].
    destruct (py_getitem tb1 index) as [[n row]|e]; [|done].
    destruct (py_div 1 DYN_RANGE_FAC) as [distance|e]; [|done].
    destruct (py_div _ _) as [q|e]; [|done].
    match goal with
    | |- context [match ?r with Ok _ => _ | Raise _ => _ end] =>
        destruct r as [sig|e]
    end; done.
Qed.

(** X8.  Calls at indices that address different rows do not interfere:
    with a generator that writes in place, the outcome of [bank[j]] (the
    filter or the exception) is the same after a call [bank[i]] as before
    it, whether the buffer is private or the caller's. *)
Theorem X8_distinct_indices_independent (i j : Z) (self : t) :
  keeps_buffer_length ->
  (forall n, py_index (length (table self)) i = Some n ->
             py_index (length (table self)) j <> Some n) ->
  snd (__getitem__ j (fst (__getitem__ i self)))
  = snd (__getitem__ j self).
Proof.
  intros Hkeep Hdiff. symmetry. apply getitem_snd_agree.
  - apply getitem_same_settings.
  - by apply getitem_buffer_length.
  - destruct (getitem_table i self) as [->|(n & row & d & Hn & ->)]; [done|].
    apply py_getitem_Ok in Hn as [Hn _]. specialize (Hdiff n Hn).
    unfold py_getitem. rewrite length_set_template_duration.
    destruct (py_index (length (table self)) j) as [m|]; [|done].
    rewrite lookup_set_template_duration_ne; [done|]. congruence.
Qed.

End Settings.

(** ** More on the end frequency *)

Section EndFrequencyMore.
Context `{G : Generator} `{X : Numerics}.
Import FilterBank.



End EndFrequencyMore.

(** ** Further properties of [CachedFilterBank] *)

Section CachedEdges.
Context `{X : Numerics} `{S : Storage}.
Import CachedFilterBank.

(** X9.  The cache is read before the table: an index whose decimal form
    is no key of the cache raises [KeyError] whatever the table holds, and
    an index with a cache entry but outside the table raises [IndexError]
    (for a bank of at least one bin with [N = 2 * (filter_length - 1)]),
    after the entry has been transformed. *)
Theorem X9_cached_lookup_errors (self : t) (index : Z) :
  (cache self !! (pretty index : string) = None ->
   __getitem__ self index = Raise KeyError)
  /\ (is_Some (cache self !! (pretty index : string)) ->
      (1 <= filter_length self)%Z ->
      N self = ((filter_length self - 1) * 2)%Z ->
      (index < - Z.of_nat (length (table self))
       \/ Z.of_nat (length (table self)) <= index)%Z ->
      __getitem__ self index = Raise IndexError).
Proof.
  unfold __getitem__, padded_and_rolled. split.
  - by intros ->.
  - intros [raw ->] Hfl HN Hidx.
    rewrite resize_Ok by lia. rewrite resize_Ok by lia.
    unfold py_getitem. by rewrite (py_index_None _ _ Hidx).
Qed.

(** X10.  [CachedFilterBank] stores [delta_f] and never reads it: two banks
    constructed alike but for [delta_f] return the same for every index,
    and the resolution of a returned filter is the one the transform gives
    to a series sampled at the step [1/4096]. *)
Theorem X10_cached_delta_f_unused (filename cache_name : string)
    (filter_length_ : Z) (delta_f_ other f_lower_ : Q) (dtype_ : DType)
    (psd_ : FrequencySeries) (self self2 : t) (index : Z) :
  __init__ filename cache_name filter_length_ delta_f_ f_lower_ dtype_ psd_
  = Ok self ->
  __init__ filename cache_name filter_length_ other f_lower_ dtype_ psd_
  = Ok self2 ->
  delta_f self = delta_f_
  /\ delta_f self2 = other
  /\ __getitem__ self2 index = __getitem__ self index
  /\ forall h,
       __getitem__ self index = Ok h ->
       exists template,
         ts_delta_t template = (1 / 4096)%Q
         /\ fs_delta_f (series h) = fs_delta_f (to_frequencyseries template).
Proof.
  intros Hinit Hinit2.
  assert (Hsame : delta_f self = delta_f_ /\ delta_f self2 = other
                  /\ __getitem__ self2 index = __getitem__ self index).
  { revert Hinit Hinit2. unfold __init__.
    destruct (h5py_File cache_name) as [store|e]; [|done].
    by intros [= <-] [= <-]. }
  destruct Hsame as (H1 & H2 & H3).
  split; [done|]. split; [done|]. split; [done|].
  intros h Hget.
  destruct (CachedFilterBank_getitem_Ok_inv self index h Hget)
    as (raw & template & d & n & row & _ & Htpl & _ & _ & ->).
  exists template. split; [|done].
  unfold padded_and_rolled in Htpl.
  destruct (resize _ _) as [d'|e]; [|done]. by injection Htpl as <-.
Qed.

(** X11.  When the keys of the cache are decimal forms of non-negative
    indices, a negative index raises [KeyError]: unlike [FilterBank], the
    cached bank does not count a negative index from the end, because the
    cache is keyed by [str(index)]. *)
Theorem X11_cached_negative_index (self : t) (index : Z) :
  (forall key : string,
     is_Some (cache self !! key) ->
     exists j : Z, (0 <= j)%Z /\ key = pretty j) ->
  (index < 0)%Z ->
  __getitem__ self index = Raise KeyError.
Proof.
  intros Hkeys Hneg. unfold __getitem__.
  destruct (cache self !! (pretty index : string)) as [raw|] eqn:E; [|done].
  destruct (Hkeys (pretty index)) as (j & Hj & Heq); [by eexists|].
  apply (inj pretty) in Heq. lia.
Qed.

End CachedEdges.

(** ** The caller's buffer after a call *)

Section SharedBuffer.
Context `{G : Generator} `{X : Numerics}.
Import FilterBank.

(** X13.  A call that returns leaves the caller's buffer with its length,
    holding what the generator wrote in its first
    [min(filter_length, len(out))] elements and zeros in all the others:
    [clear] wipes the whole buffer, also the part beyond [filter_length]
    that the generator never sees. *)
Theorem X13_shared_buffer_after_call (index : Z) (self self' : t)
    (h : Filter) (o : list sample) :
  keeps_buffer_length -> (0 <= filter_length self)%Z ->
  out self = Some o ->
  __getitem__ index self = (self', Ok h) ->
  let seen := (Z.to_nat (filter_length self) `min` length o)%nat in
  exists o',
    out self' = Some o'
    /\ length o' = length o
    /\ drop seen o' = replicate (length o - seen) zero.
Proof.
  intros Hkeep Hfl Hout Hget seen.
  destruct (getitem_Ok_inv index self self' h Hget)
    as (tempout & n & row & distance & q & sig
        & Htemp & _ & _ & _ & _ & -> & _).
  unfold select_tempout in Htemp. rewrite Hout in Htemp.
  injection Htemp as <-.
  assert (Hview : length (view self o) = seen) by by apply length_view.
  assert (Hgen : length (gen_buffer (generate self o row distance)) = seen).
  { unfold generate. by rewrite Hkeep. }
  eexists. split.
  { destruct (gen_length_in_time _); simpl; unfold write_out;
      by rewrite Hout. }
  rewrite Hview. split.
  - rewrite length_app, length_drop, length_clear, Hgen. unfold seen. lia.
  - rewrite <- Hgen at 1. rewrite drop_app_length.
    unfold clear. by rewrite drop_replicate.
Qed.

End SharedBuffer.

(** ** The further properties on the small world *)

Section MoreRuns.
Import Toy.

Lemma toy_keeps_buffer_length : keeps_buffer_length.
Proof.
  intros buf row a f_low df dt dist kw. simpl. unfold fill.
  destruct (float_attr row "mass1"); [apply length_insert|done].
Qed.

Lemma X8_distinct_indices_independent_witness :
  snd (FilterBank.__getitem__ 1 (fst (FilterBank.__getitem__ 0 short_shared)))
  = snd (FilterBank.__getitem__ 1 short_shared).
Proof.
  apply (X8_distinct_indices_independent 0 1 short_shared
           toy_keeps_buffer_length).
  intros n [= <-]. vm_compute. discriminate.
Defined.

Lemma X9_cached_lookup_errors_witness :
  CachedFilterBank.__getitem__ cached 5 = Raise KeyError
  /\ CachedFilterBank.__getitem__ Toy2.cached_short 1 = Raise IndexError.
Proof.
  split.
  - apply (X9_cached_lookup_errors cached 5). reflexivity.
  - apply (X9_cached_lookup_errors Toy2.cached_short 1).
    + by eexists.
    + simpl. lia.
    + reflexivity.
    + right. simpl. lia.
Defined.

Lemma X10_cached_delta_f_unused_witness :
  CachedFilterBank.delta_f cached = (1 # 4)%Q
  /\ CachedFilterBank.delta_f
       {| CachedFilterBank.filter_length := 2;
          CachedFilterBank.delta_f := 1 # 2;
          CachedFilterBank.f_lower := 1;
          CachedFilterBank.dtype := complex128;
          CachedFilterBank.psd := flat_psd;
          CachedFilterBank.sigmasq_vec := None;
          CachedFilterBank.N := 2;
          CachedFilterBank.cache := CachedFilterBank.cache cached;
          CachedFilterBank.table := [row0; row1; row2] |} = (1 # 2)%Q
  /\ CachedFilterBank.__getitem__
       {| CachedFilterBank.filter_length := 2;
          CachedFilterBank.delta_f := 1 # 2;
          CachedFilterBank.f_lower := 1;
          CachedFilterBank.dtype := complex128;
          CachedFilterBank.psd := flat_psd;
          CachedFilterBank.sigmasq_vec := None;
          CachedFilterBank.N := 2;
          CachedFilterBank.cache := CachedFilterBank.cache cached;
          CachedFilterBank.table := [row0; row1; row2] |} 1
     = CachedFilterBank.__getitem__ cached 1
  /\ forall h,
       CachedFilterBank.__getitem__ cached 1 = Ok h ->
       exists template,
         ts_delta_t template = (1 / 4096)%Q
         /\ fs_delta_f (series h) = fs_delta_f (to_frequencyseries template).
Proof.
  apply (X10_cached_delta_f_unused "bank.xml" "cache.hdf" 2 (1 # 4) (1 # 2) 1
           complex128 flat_psd); reflexivity.
Defined.

Lemma toy_cache_keys (key : string) :
  is_Some (CachedFilterBank.cache cached !! key) ->
  exists j : Z, (0 <= j)%Z /\ key = pretty j.
Proof.
  simpl. rewrite !lookup_insert_is_Some, lookup_empty.
  intros [<-|[_ [<-|[_ [<-|[_ [? ?]]]]]]]; [| | |done].
  - by exists 0%Z.
  - by exists 1%Z.
  - by exists 2%Z.
Qed.

Lemma X11_cached_negative_index_witness :
  CachedFilterBank.__getitem__ cached (- 1) = Raise KeyError.
Proof.
  apply (X11_cached_negative_index cached (- 1) toy_cache_keys). lia.
Defined.


Lemma X13_shared_buffer_after_call_witness :
  exists self' h,
    FilterBank.__getitem__ 0
      (FilterBank.set_out (replicate 7 (real 9)) synth) = (self', Ok h)
    /\ exists o',
         FilterBank.out self' = Some o'
         /\ length o' = length (replicate 7 (real 9))
         /\ drop (Z.to_nat 5 `min` length (replicate 7 (real 9))) o'
            = replicate (length (replicate 7 (real 9))
                         - Z.to_nat 5 `min` length (replicate 7 (real 9)))
                        zero.
Proof.
  eexists _, _. split; [vm_compute; reflexivity|].
  eapply (X13_shared_buffer_after_call 0
            (FilterBank.set_out (replicate 7 (real 9)) synth) _ _
            (replicate 7 (real 9)) toy_keeps_buffer_length).
  - simpl. lia.
  - reflexivity.
  - vm_compute. reflexivity.
Defined.

End MoreRuns.
